From stdpp Require Import gmap strings list.
From Stdlib Require Import ZArith Lia String Ascii.
From Corelib Require Import SpecFloat.
Open Scope Z_scope.

(** * A Rubik's cube stopwatch ([main.py])

    [main.py] is a tkinter window with a stopwatch driven by two keys, and
    a button that sends the recorded solving time to InfluxDB.  This file
    embeds its class [RubiksCubeStopWatch], with the parts of Python's
    runtime, of tkinter and of the InfluxDB client that the class calls,
    and proves the properties its specification states. *)

(** * The Python runtime, as far as [main.py] calls it *)

Module Py.

(** Exceptions the modelled calls can raise. *)
Inductive exception :=
| IndexError
| KeyError (key : string)
| TypeError
| ValueError
| OverflowError
| OSError
| FileNotFoundError
| TclError
| NewConnectionError.

Inductive result (A : Type) :=
| Ok (a : A)
| Raise (e : exception).
Arguments Ok {A} a.
Arguments Raise {A} e.

(** ** [float]: IEEE 754 binary64 *)

Definition prec : Z := 53.
Definition emax : Z := 1024.
Definition emin : Z := 3 - emax - prec.

Definition float := spec_float.

Definition float_sub : float -> float -> float := SFsub prec emax.
Definition float_div : float -> float -> float := SFdiv prec emax.
Definition float_lt : float -> float -> bool := SFltb.
Definition float_of_Z (n : Z) : float := binary_normalize prec emax n 0 false.

(** The float a decimal literal denotes: [literal n k] is the literal whose
    digits, the point removed, read [n], [k] of them after the point
    ([literal 36614567 4] is [3661.4567]).  For [n < 2^53] and [k <= 22] both
    [n] and [10^k] are floats, so the one division rounds once, to the
    nearest float, which is what reading the literal does. *)
Definition literal (n : Z) (k : nat) : float :=
  float_div (float_of_Z n) (float_of_Z (10 ^ Z.of_nat k)).

(** [bool(x)] for a float: [x != 0.0] (so [nan] is true, [-0.0] false). *)
Definition truthy (x : float) : bool :=
  match x with
  | S754_zero _ => false
  | _ => true
  end.

Definition is_finite (x : float) : bool :=
  match x with
  | S754_zero _ | S754_finite _ _ _ => true
  | _ => false
  end.

(** [math.floor(x)] of a finite float [x]. *)
Definition floor (x : float) : Z :=
  match x with
  | S754_finite s m e => Z.shiftl (cond_Zopp s (Z.pos m)) e
  | _ => 0
  end.

(** *** Exact comparison of numbers [c * 2^p * 10^q] *)

Record scaled := Scaled { coef : Z; exp2 : Z; exp10 : Z }.

Definition scale_to (x : scaled) (p q : Z) : Z :=
  coef x * 2 ^ (exp2 x - p) * 10 ^ (exp10 x - q).

Definition scaled_compare (x y : scaled) : comparison :=
  let p := Z.min (exp2 x) (exp2 y) in
  let q := Z.min (exp10 x) (exp10 y) in
  scale_to x p q ?= scale_to y p q.

Definition scaled_ltb (x y : scaled) : bool :=
  match scaled_compare x y with Lt => true | _ => false end.

Definition scaled_leb (x y : scaled) : bool :=
  match scaled_compare x y with Gt => false | _ => true end.

(** [floor (x / 10^j)] for [x >= 0]. *)
Definition scaled_div_pow10 (x : scaled) (j : Z) : Z :=
  let q := Z.min (exp10 x) j in
  let p := Z.min (exp2 x) 0 in
  scale_to x p q / scale_to (Scaled 1 0 j) p q.

(** *** [repr(x)]: the shortest decimal string that reads back as [x] *)

Section Shortest.
(** The positive float [m * 2^e]. *)
Variables (m : positive) (e : Z).

Definition value : scaled := Scaled (Z.pos m) e 0.

(** The reals that round to [m * 2^e] lie between the midpoints to
    its two neighbours; the lower neighbour is half as far when [m] is the
    least mantissa of its binade. *)
Definition upper_bound : scaled := Scaled (2 * Z.pos m + 1) (e - 1) 0.
Definition lower_bound : scaled :=
  if (Z.pos m =? 2 ^ (prec - 1)) && (emin <? e)
  then Scaled (4 * Z.pos m - 1) (e - 2) 0
  else Scaled (2 * Z.pos m - 1) (e - 1) 0.

(** Does [c * 10^j] read back as [m * 2^e]?  A midpoint rounds to the
    even mantissa. *)
Definition reads_back (c j : Z) : bool :=
  let d := Scaled c 0 j in
  if Z.even (Z.pos m)
  then scaled_leb lower_bound d && scaled_leb d upper_bound
  else scaled_ltb lower_bound d && scaled_ltb d upper_bound.

(** The decimal point position: the least [k] with [m * 2^e < 10^k].
    The search starts below it, at an estimate from the binary
    exponent ([log10 2] is a little under 0.30103), and is a few steps
    long; [2^b <= 10^(max b 0)] bounds it from above. *)
Definition bits : Z := Z.log2 (Z.pos m) + 1 + e.

Fixpoint find_decpt (fuel : nat) (k : Z) : Z :=
  match fuel with
  | O => Z.max bits 0
  | S fuel' =>
      if scaled_ltb value (Scaled 1 0 k) then k
      else find_decpt fuel' (k + 1)
  end.

Definition decpt_of_value : Z :=
  find_decpt 8 ((bits - 1) * 30103 / 100000 - 1).

(** Of the two multiples of [10^j] around the value, the nearer one
    (the even one on a tie). *)
Definition nearest (j : Z) : Z :=
  let lo := scaled_div_pow10 value j in
  match scaled_compare (Scaled (2 * Z.pos m) e 0) (Scaled (2 * lo + 1) 0 j) with
  | Lt => lo
  | Gt => lo + 1
  | Eq => if Z.even lo then lo else lo + 1
  end.

(** The multiple of [10^j] that reads back, the nearer one when both do. *)
Definition candidate (j : Z) : option Z :=
  let lo := scaled_div_pow10 value j in
  match reads_back lo j, reads_back (lo + 1) j with
  | true, true => Some (nearest j)
  | true, false => Some lo
  | false, true => Some (lo + 1)
  | false, false => None
  end.

(** Try [n], [n + 1], ... significant digits below [10^k]; 17 digits
    always suffice for a binary64. *)
Fixpoint shortest_from (k : Z) (fuel : nat) (n : Z) : Z * Z :=
  match fuel with
  | O => (nearest (k - n), n)
  | S fuel' =>
      match candidate (k - n) with
      | Some c => (c, n)
      | None => shortest_from k fuel' (n + 1)
      end
  end.
End Shortest.

(** Decimal digits of a non-negative integer, most significant first. *)
Definition digit_char (d : Z) : ascii := ascii_of_nat (48 + Z.to_nat d).

Fixpoint digits_aux (fuel : nat) (n : Z) (acc : string) : string :=
  match fuel with
  | O => acc
  | S fuel' =>
      let acc' := String (digit_char (n mod 10)) acc in
      if n <? 10 then acc' else digits_aux fuel' (n / 10) acc'
  end.

Definition digits_of (n : Z) : string :=
  digits_aux (S (Z.to_nat (Z.log2 n))) n "".

Fixpoint strip_zeros (fuel : nat) (c : Z) : Z :=
  match fuel with
  | O => c
  | S fuel' =>
      if (0 <? c) && (c mod 10 =? 0) then strip_zeros fuel' (c / 10) else c
  end.

(** What [_Py_dg_dtoa] returns in mode 0: the digits of the shortest
    decimal that reads back as [m * 2^e], without trailing zeros, and the
    position of the decimal point relative to the first digit. *)
Definition dtoa (m : positive) (e : Z) : string * Z :=
  let k := decpt_of_value m e in
  let '(c, n) := shortest_from m e k 16 1 in
  (digits_of (strip_zeros 17 c), if c =? 10 ^ n then k + 1 else k).

Fixpoint zeros (n : nat) : string :=
  match n with
  | O => ""
  | S n' => String "0" (zeros n')
  end.

Fixpoint take (n : nat) (s : string) : string :=
  match n, s with
  | S n', String c s' => String c (take n' s')
  | _, _ => ""
  end.

Fixpoint drop (n : nat) (s : string) : string :=
  match n, s with
  | S n', String _ s' => drop n' s'
  | _, _ => s
  end.

(** [sprintf("%+.02d", exp)]. *)
Definition exponent_string (exp : Z) : string :=
  let ds := digits_of (Z.abs exp) in
  (if exp <? 0 then "-" else "+") +:+
  (if Nat.ltb (String.length ds) 2 then "0" +:+ ds else ds).

(** [format_float_short] for format code ['r'] with [Py_DTSF_ADD_DOT_0]:
    exponent notation from [1e16] on and below [1e-4], positional notation
    with at least one digit after the point in between. *)
Definition format_float_short (ds : string) (decpt : Z) : string :=
  let len := Z.of_nat (String.length ds) in
  if (decpt <=? -4) || (16 <? decpt) then
    let mantissa :=
      if len =? 1 then ds else take 1 ds +:+ "." +:+ drop 1 ds in
    mantissa +:+ "e" +:+ exponent_string (decpt - 1)
  else if decpt <=? 0 then
    "0." +:+ zeros (Z.to_nat (- decpt)) +:+ ds
  else if decpt <? len then
    take (Z.to_nat decpt) ds +:+ "." +:+ drop (Z.to_nat decpt) ds
  else
    ds +:+ zeros (Z.to_nat (decpt - len)) +:+ ".0".

(** [str(x)] (the same as [repr(x)]) for a float. *)
Definition str (x : float) : string :=
  match x with
  | S754_nan => "nan"
  | S754_infinity s => (if s then "-" else "") +:+ "inf"
  | S754_zero s => (if s then "-" else "") +:+ "0.0"
  | S754_finite s m e =>
      let '(ds, decpt) := dtoa m e in
      (if s then "-" else "") +:+ format_float_short ds decpt
  end.


(** ** [str] methods *)

(** [s.split(sep)] for a separator of one character. *)
Fixpoint split (sep : ascii) (s : string) : list string :=
  match s with
  | EmptyString => [EmptyString]
  | String c s' =>
      if Ascii.eqb c sep then EmptyString :: split sep s'
      else
        match split sep s' with
        | piece :: pieces => String c piece :: pieces
        | [] => [String c EmptyString]
        end
  end.

(** [l[i]] for [i >= 0]. *)
Definition getitem {A : Type} (l : list A) (i : nat) : result A :=
  match l !! i with
  | Some x => Ok x
  | None => Raise IndexError
  end.

(** ** [time.gmtime] and [time.strftime] *)

(** The fields of [struct_time] that [strftime("%H:%M:%S", t)] reads or
    checks. *)
Record struct_time := {
  tm_year : Z;
  tm_hour : Z;
  tm_min : Z;
  tm_sec : Z
}.

(** The ranges of C's [time_t] (64 bits) and [int]. *)
Definition TIME_T_MIN : Z := - 2 ^ 63.
Definition TIME_T_MAX : Z := 2 ^ 63 - 1.
Definition INT_MIN : Z := - 2 ^ 31.
Definition INT_MAX : Z := 2 ^ 31 - 1.

Definition fits_int (n : Z) : bool := (INT_MIN <=? n) && (n <=? INT_MAX).

(** The year of the proleptic Gregorian calendar in which the day
    [days] days after 1970-01-01 falls: 400-year eras of 146097 days,
    counted from a 1st of March. *)
Definition year_of_days (days : Z) : Z :=
  let z := days + 719468 in
  let era := z / 146097 in
  let doe := z mod 146097 in
  let yoe := (doe - doe / 1460 + doe / 36524 - doe / 146096) / 365 in
  let doy := doe - (365 * yoe + yoe / 4 - yoe / 100) in
  let mp := (5 * doy + 2) / 153 in
  yoe + era * 400 + (if mp <? 10 then 0 else 1).

(** [time.gmtime(secs)] for a float: the float is floored to a [time_t]
    ([OverflowError] when it does not fit) and broken down in UTC, so the
    clock fields are those of the time of day; [OSError] when the year,
    counted from 1900, does not fit the [int] of C's [struct tm].
    The range check compares doubles, and [TIME_T_MAX] as a double is
    [2^63]: that value passes the check and fails at the year. *)
Definition gmtime (secs : float) : result struct_time :=
  match secs with
  | S754_nan => Raise ValueError
  | S754_infinity _ => Raise OverflowError
  | _ =>
      let t := floor secs in
      if (t <? TIME_T_MIN) || (TIME_T_MAX + 1 <? t) then Raise OverflowError
      else
        let year := year_of_days (t / 86400) in
        if fits_int (year - 1900) then
          Ok {| tm_year := year;
                tm_hour := t mod 86400 / 3600;
                tm_min := t mod 3600 / 60;
                tm_sec := t mod 60 |}
        else Raise OSError
  end.

(** A clock field printed by [%H], [%M] or [%S]: two decimal digits. *)
Definition two_digits (n : Z) : string :=
  String (digit_char (n / 10)) (String (digit_char (n mod 10)) EmptyString).

(** The output for the directives [%H], [%M] and [%S]; every other
    character of the format is copied. *)
Fixpoint strftime_fields (format : string) (t : struct_time) : string :=
  match format with
  | String "%" (String "H" rest) =>
      two_digits (tm_hour t) +:+ strftime_fields rest t
  | String "%" (String "M" rest) =>
      two_digits (tm_min t) +:+ strftime_fields rest t
  | String "%" (String "S" rest) =>
      two_digits (tm_sec t) +:+ strftime_fields rest t
  | String c rest => String c (strftime_fields rest t)
  | EmptyString => EmptyString
  end.

(** [time.strftime(format, t)]: every field of [t] is first converted to
    a C [int], [OverflowError] when the year does not fit. *)
Definition strftime (format : string) (t : struct_time) : result string :=
  if fits_int (tm_year t) then Ok (strftime_fields format t)
  else Raise OverflowError.

End Py.

(** * The InfluxDB client, as far as [main.py] calls it *)

Module Influx.

(** [Point]: a measurement name, a dict of tags and a dict of fields. *)
Record Point := {
  measurement : string;
  tags : gmap string string;
  fields : gmap string Py.float
}.

(** [Point(name)], [point.tag(key, value)] and [point.field(key, value)]. *)
Definition new_point (name : string) : Point :=
  {| measurement := name; tags := ∅; fields := ∅ |}.

Definition tag (key value : string) (p : Point) : Point :=
  {| measurement := measurement p;
     tags := <[key := value]> (tags p);
     fields := fields p |}.

Definition field (key : string) (value : Py.float) (p : Point) : Point :=
  {| measurement := measurement p;
     tags := tags p;
     fields := <[key := value]> (fields p) |}.

(** One call of [write_api.write(bucket, record)] on a client opened with
    [url], [token] and [org]. *)
Record write_call := {
  url : string;
  token : string;
  org : string;
  bucket : string;
  record : Point
}.

(** What the synchronous write does: it returns; it raises
    [InfluxDBError] with a message (the server answered with an error);
    or it raises an exception that is no [InfluxDBError] (urllib3's
    [NewConnectionError] when the connection is refused). *)
Inductive write_outcome :=
| Written
| InfluxDBError (message : string)
| Raises (e : Py.exception).

End Influx.

(** * The class [RubiksCubeStopWatch] *)

(** What [__init__] reads from the working directory: the parsed
    [config.json] when the file is there (a JSON object of strings), and
    whether [rubiks_cube.png] is there. *)
Record files := {
  config_json : option (gmap string string);
  rubiks_cube_png : bool
}.

(** The attributes of the window object, the state of the widgets the
    methods configure, and tkinter's queue of [after] callbacks.  [sent]
    is a ghost field: the writes handed to the InfluxDB client so far. *)
Record StopWatch := {
  config : gmap string string;
  _start_time : option Py.float;
  _final_time : option Py.float;
  _after_id : option nat;
  label_text : string;
  influx_btn_text : string;
  influx_btn_packed : bool;
  cube_choice : string;
  after_queue : list nat;
  after_count : nat;
  sent : list Influx.write_call
}.

Definition set_start_time (v : option Py.float) (self : StopWatch) : StopWatch :=
  {| config := config self; _start_time := v; _final_time := _final_time self;
     _after_id := _after_id self; label_text := label_text self;
     influx_btn_text := influx_btn_text self;
     influx_btn_packed := influx_btn_packed self;
     cube_choice := cube_choice self; after_queue := after_queue self;
     after_count := after_count self; sent := sent self |}.

Definition set_final_time (v : option Py.float) (self : StopWatch) : StopWatch :=
  {| config := config self; _start_time := _start_time self; _final_time := v;
     _after_id := _after_id self; label_text := label_text self;
     influx_btn_text := influx_btn_text self;
     influx_btn_packed := influx_btn_packed self;
     cube_choice := cube_choice self; after_queue := after_queue self;
     after_count := after_count self; sent := sent self |}.

Definition set_after_id (v : option nat) (self : StopWatch) : StopWatch :=
  {| config := config self; _start_time := _start_time self;
     _final_time := _final_time self;
     _after_id := v; label_text := label_text self;
     influx_btn_text := influx_btn_text self;
     influx_btn_packed := influx_btn_packed self;
     cube_choice := cube_choice self; after_queue := after_queue self;
     after_count := after_count self; sent := sent self |}.

Definition set_label_text (v : string) (self : StopWatch) : StopWatch :=
  {| config := config self; _start_time := _start_time self;
     _final_time := _final_time self;
     _after_id := _after_id self; label_text := v;
     influx_btn_text := influx_btn_text self;
     influx_btn_packed := influx_btn_packed self;
     cube_choice := cube_choice self; after_queue := after_queue self;
     after_count := after_count self; sent := sent self |}.

Definition set_influx_btn_text (v : string) (self : StopWatch) : StopWatch :=
  {| config := config self; _start_time := _start_time self;
     _final_time := _final_time self;
     _after_id := _after_id self; label_text := label_text self;
     influx_btn_text := v;
     influx_btn_packed := influx_btn_packed self;
     cube_choice := cube_choice self; after_queue := after_queue self;
     after_count := after_count self; sent := sent self |}.

Definition set_influx_btn_packed (v : bool) (self : StopWatch) : StopWatch :=
  {| config := config self; _start_time := _start_time self;
     _final_time := _final_time self;
     _after_id := _after_id self; label_text := label_text self;
     influx_btn_text := influx_btn_text self;
     influx_btn_packed := v;
     cube_choice := cube_choice self; after_queue := after_queue self;
     after_count := after_count self; sent := sent self |}.

Definition set_cube_choice (v : string) (self : StopWatch) : StopWatch :=
  {| config := config self; _start_time := _start_time self;
     _final_time := _final_time self;
     _after_id := _after_id self; label_text := label_text self;
     influx_btn_text := influx_btn_text self;
     influx_btn_packed := influx_btn_packed self;
     cube_choice := v; after_queue := after_queue self;
     after_count := after_count self; sent := sent self |}.

Definition set_after_queue (q : list nat) (n : nat) (self : StopWatch) : StopWatch :=
  {| config := config self; _start_time := _start_time self;
     _final_time := _final_time self;
     _after_id := _after_id self; label_text := label_text self;
     influx_btn_text := influx_btn_text self;
     influx_btn_packed := influx_btn_packed self;
     cube_choice := cube_choice self; after_queue := q;
     after_count := n; sent := sent self |}.

Definition set_sent (v : list Influx.write_call) (self : StopWatch) : StopWatch :=
  {| config := config self; _start_time := _start_time self;
     _final_time := _final_time self;
     _after_id := _after_id self; label_text := label_text self;
     influx_btn_text := influx_btn_text self;
     influx_btn_packed := influx_btn_packed self;
     cube_choice := cube_choice self; after_queue := after_queue self;
     after_count := after_count self; sent := v |}.

(** ** Methods: state passing, with exceptions

    A method takes the object and returns it with a value or a raised
    exception; what it assigned before raising stays assigned. *)

Definition M (A : Type) : Type := StopWatch -> StopWatch * Py.result A.

Definition ret {A : Type} (x : A) : M A := fun self => (self, Py.Ok x).

Definition raise {A : Type} (e : Py.exception) : M A :=
  fun self => (self, Py.Raise e).

Definition bind {A B : Type} (m : M A) (k : A -> M B) : M B :=
  fun self =>
    match m self with
    | (self', Py.Ok x) => k x self'
    | (self', Py.Raise e) => (self', Py.Raise e)
    end.

Definition gets {A : Type} (f : StopWatch -> A) : M A :=
  fun self => (self, Py.Ok (f self)).

Definition modify (f : StopWatch -> StopWatch) : M unit :=
  fun self => (f self, Py.Ok tt).

Definition lift {A : Type} (r : Py.result A) : M A := fun self => (self, r).

#[global] Instance M_ret : MRet M := @ret.
#[global] Instance M_bind : MBind M := fun A B k m => bind m k.

(** [self.after(20, self.display_time)]: tkinter queues the callback and
    returns its identifier. *)
Definition after : M nat :=
  id ← gets after_count;
  q ← gets after_queue;
  modify (set_after_queue (q ++ [id]) (S id)) ;;
  ret id.

(** [self.after_cancel(id)]: [ValueError] when [id] is [None]; cancelling
    a callback that already ran is allowed. *)
Definition after_cancel (id : option nat) : M unit :=
  match id with
  | None => raise Py.ValueError
  | Some i =>
      q ← gets after_queue;
      n ← gets after_count;
      modify (set_after_queue (filter (fun j => j ≠ i) q) n)
  end.

(** [self.config[key]]. *)
Definition config_getitem (key : string) : M string :=
  c ← gets config;
  match c !! key with
  | Some v => ret v
  | None => raise (Py.KeyError key)
  end.

(** [bool(x)] for an attribute that holds [None] or a float. *)
Definition truth (x : option Py.float) : bool :=
  match x with
  | None => false
  | Some v => Py.truthy v
  end.

Definition is_None {A : Type} (x : option A) : bool :=
  match x with
  | None => true
  | Some _ => false
  end.

(** [format_seconds(seconds)] *)
Definition format_seconds (seconds : Py.float) : Py.result string :=
  match Py.getitem (Py.split "." (Py.str seconds)) 1 with
  | Py.Raise e => Py.Raise e
  | Py.Ok fraction =>
      let miliseconds := Py.take 3 fraction in
      match Py.gmtime seconds with
      | Py.Raise e => Py.Raise e
      | Py.Ok t =>
          match Py.strftime "%H:%M:%S" t with
          | Py.Raise e => Py.Raise e
          | Py.Ok str_time => Py.Ok (str_time +:+ "." +:+ miliseconds)
          end
      end
  end.

(** [get_config()] *)
Definition get_config (fs : files) : Py.result (gmap string string) :=
  match config_json fs with
  | Some c => Py.Ok c
  | None => Py.Raise Py.FileNotFoundError
  end.

(** The object [__init__] has built when it calls [mainloop()]: the
    attributes as assigned, the label and the button as created (the
    button not packed yet), the dropdown set to ["speed"], no callback
    queued. *)
Definition initial (c : gmap string string) : StopWatch :=
  {| config := c;
     _start_time := None;
     _final_time := None;
     _after_id := None;
     label_text := "Press space to start the stopwatch";
     influx_btn_text := "Send result to InfluxDb";
     influx_btn_packed := false;
     cube_choice := "speed";
     after_queue := [];
     after_count := 0;
     sent := [] |}.

(** [__init__]: the object with which [mainloop()] is entered and the
    window shown, or the exception that ends the program before that:
    [get_config()] runs first, then the background image is loaded. *)
Definition __init__ (fs : files) : Py.result StopWatch :=
  match get_config fs with
  | Py.Raise e => Py.Raise e
  | Py.Ok c =>
      if rubiks_cube_png fs then Py.Ok (initial c)
      else Py.Raise Py.TclError
  end.

(** [start()]; [now] is what [time.perf_counter()] returns. *)
Definition start (now : Py.float) : M unit :=
  modify (set_start_time (Some now)).

(** [display_time()] *)
Definition display_time (now : Py.float) : M unit :=
  start_time ← gets _start_time;
  text ← match start_time with
          | None => ret "Starting...."
          | Some t0 =>
              let elapsed_seconds := Py.float_sub now t0 in
              lift (format_seconds elapsed_seconds)
          end;
  modify (set_label_text text) ;;
  id ← after;
  modify (set_after_id (Some id)).

(** [stop()] *)
Definition stop (now : Py.float) : M unit :=
  id ← gets _after_id;
  after_cancel id ;;
  start_time ← gets _start_time;
  elapsed_seconds ← match start_time with
                     | Some t0 => ret (Py.float_sub now t0)
                     | None => raise Py.TypeError
                     end;
  modify (set_final_time (Some elapsed_seconds)) ;;
  modify (set_influx_btn_packed true) ;;
  str_time ← lift (format_seconds elapsed_seconds);
  modify (set_label_text ("Elapsed time: " +:+ str_time +:+ " seconds")).

(** [restart()] *)
Definition restart : M unit :=
  modify (set_start_time None) ;;
  modify (set_final_time None) ;;
  modify (set_influx_btn_packed false) ;;
  modify (set_influx_btn_text "Send result to InfluxDb") ;;
  modify (set_label_text "Hit space to start the stopwatch!").

(** [handle_user_event(event)], for [event.keysym] and the clock reading
    the branch taken makes. *)
Definition handle_user_event (keysym : string) (now : Py.float) : M unit :=
  start_time ← gets _start_time;
  final_time ← gets _final_time;
  if String.eqb keysym "space" && is_None start_time then
    display_time now ;; start now
  else if String.eqb keysym "space" && negb (truth final_time) then
    stop now
  else if String.eqb keysym "a" && truth final_time then
    restart
  else ret tt.

(** [transmit_to_influxdb(recorded_seconds)]; [outcome] is what the
    client's [write] does when it is reached. *)
Definition transmit_to_influxdb (recorded_seconds : option Py.float)
    (outcome : Influx.write_outcome) : M unit :=
  match recorded_seconds with
  | None => ret tt
  | Some seconds =>
      url ← config_getitem "INFLUX_URL";
      token ← config_getitem "INFLUX_TOKEN";
      org ← config_getitem "INFLUX_ORG";
      cube ← gets cube_choice;
      let data :=
        Influx.field "recorded_time" seconds
          (Influx.tag "cube" cube (Influx.new_point "solving_time")) in
      bucket ← config_getitem "INFLUX_BUCKET";
      calls ← gets sent;
      modify (set_sent (calls ++ [ {| Influx.url := url;
                                      Influx.token := token;
                                      Influx.org := org;
                                      Influx.bucket := bucket;
                                      Influx.record := data |} ])) ;;
      match outcome with
      | Influx.Written =>
          modify (set_influx_btn_text "Data sent to InfluxDb!")
      | Influx.InfluxDBError message =>
          modify (set_label_text message)
      | Influx.Raises e => raise e
      end
  end.

(** ** The event loop *)

(** The two entries of the dropdown. *)
Inductive cube_option := speed | classic.

Definition cube_option_value (o : cube_option) : string :=
  match o with
  | speed => "speed"
  | classic => "classic"
  end.

(** What [mainloop()] dispatches: a key press, a due [after] callback,
    a click on the button, a choice in the dropdown. *)
Inductive event :=
| Key (keysym : string) (now : Py.float)
| After (id : nat) (now : Py.float)
| Button (outcome : Influx.write_outcome)
| Choose (o : cube_option).

Definition callback (ev : event) : M unit :=
  match ev with
  | Key keysym now => handle_user_event keysym now
  | After id now =>
      q ← gets after_queue;
      if bool_decide (id ∈ q) then
        n ← gets after_count;
        modify (set_after_queue (filter (fun j => j ≠ id) q) n) ;;
        display_time now
      else ret tt
  | Button outcome =>
      packed ← gets influx_btn_packed;
      if (packed : bool) then
        final_time ← gets _final_time;
        transmit_to_influxdb final_time outcome
      else ret tt
  | Choose o => modify (set_cube_choice (cube_option_value o))
  end.

(** tkinter reports an exception raised by a callback and goes on. *)
Definition step (self : StopWatch) (ev : event) : StopWatch :=
  fst (callback ev self).

Definition run (self : StopWatch) (evs : list event) : StopWatch :=
  fold_left step evs self.

(** ** The session state

    The handler tells the states apart by its guards: no start instant
    yet, a start instant and no recorded time that counts as true, a
    recorded time; the button's caption tells whether the time was sent. *)

Inductive state := Idle | Running | Stopped | Sent.

Definition state_of (self : StopWatch) : state :=
  match _start_time self with
  | None => Idle
  | Some _ =>
      if negb (truth (_final_time self)) then Running
      else if String.eqb (influx_btn_text self) "Data sent to InfluxDb!"
           then Sent
           else Stopped
  end.

(** The transition table of the specification: the start/stop key
    starts an idle session and stops a running one, the reset key resets
    a stopped or sent one, and every other key press is ignored. *)
Inductive action := DoStart | DoStop | DoReset | Ignored.

Definition spec_key (s : state) (keysym : string) : action :=
  if String.eqb keysym "space" then
    match s with
    | Idle => DoStart
    | Running => DoStop
    | Stopped | Sent => Ignored
    end
  else if String.eqb keysym "a" then
    match s with
    | Stopped | Sent => DoReset
    | Idle | Running => Ignored
    end
  else Ignored.

Definition spec_next (s : state) (a : action) : state :=
  match a with
  | DoStart => Running
  | DoStop => Stopped
  | DoReset => Idle
  | Ignored => s
  end.

(** The session of the specification, event by event: a key press moves
    it by the table; a send that succeeds moves a stopped or sent session
    to [Sent] ([sendable] tells whether the config lets the write be made);
    a failed send, whatever the write raised, a refresh of the display
    and a choice of cube kind leave it where it is. *)
Definition spec_step (sendable : bool) (s : state) (ev : event) : state :=
  match ev with
  | Key keysym _ => spec_next s (spec_key s keysym)
  | Button Influx.Written =>
      match s with
      | Stopped | Sent => if sendable then Sent else s
      | Idle | Running => s
      end
  | Button (Influx.InfluxDBError _) | Button (Influx.Raises _)
  | After _ _ | Choose _ => s
  end.

Definition spec_run (sendable : bool) (evs : list event) : state :=
  fold_left (spec_step sendable) evs Idle.

(** ** The clock

    [time.perf_counter()] returns finite floats and, between two events,
    moves on: a reading taken after the start instant is later than it. *)
Definition clock_reading (now : Py.float) : bool :=
  Py.is_finite now && valid_binary Py.prec Py.emax now.

Definition clock_ok (self : StopWatch) (ev : event) : bool :=
  match ev with
  | Key _ now | After _ now =>
      clock_reading now &&
      match _start_time self with
      | Some t0 => Py.float_lt t0 now
      | None => true
      end
  | Button _ | Choose _ => true
  end.

Fixpoint clock_moves_on (self : StopWatch) (evs : list event) : bool :=
  match evs with
  | [] => true
  | ev :: evs' => clock_ok self ev && clock_moves_on (step self ev) evs'
  end.

(** ** Shapes of strings *)

Definition is_digit (c : ascii) : bool :=
  (48 <=? nat_of_ascii c)%nat && (nat_of_ascii c <=? 57)%nat.

Fixpoint all_digits (s : string) : bool :=
  match s with
  | EmptyString => true
  | String c s' => is_digit c && all_digits s'
  end.

(** The pattern [HH:MM:SS.mmm]: digit groups of 2, 2, 2 and 3. *)
Definition matches_HH_MM_SS_mmm (s : string) : bool :=
  match s with
  | String h1 (String h2 (String ":" (String m1 (String m2 (String ":"
      (String s1 (String s2 (String "." (String f1 (String f2 (String f3
         EmptyString))))))))))) =>
      forallb is_digit [h1; h2; m1; m2; s1; s2; f1; f2; f3]
  | _ => false
  end.

(** The four entries [transmit_to_influxdb] looks up in the config. *)
Definition required_fields : list string :=
  ["INFLUX_URL"; "INFLUX_TOKEN"; "INFLUX_ORG"; "INFLUX_BUCKET"].

Definition complete (c : gmap string string) : bool :=
  forallb (fun key => bool_decide (is_Some (c !! key))) required_fields.

(** A string of digits around one point has no other character. *)
Definition plain_char (c : ascii) : bool := is_digit c || Ascii.eqb c ".".

Fixpoint plain (s : string) : bool :=
  match s with
  | EmptyString => true
  | String c s' => plain_char c && plain s'
  end.

(** ** What holds of the object whenever the event loop is idle *)

Record invariant (self : StopWatch) : Prop := {
  inv_idle : _start_time self = None -> _final_time self = None;
  inv_true : forall d, _final_time self = Some d -> Py.truthy d = true;
  inv_button : _final_time self = None ->
               influx_btn_text self = "Send result to InfluxDb" /\
               influx_btn_packed self = false;
  inv_packed : _final_time self <> None -> influx_btn_packed self = true;
  inv_clock : forall t0, _start_time self = Some t0 -> clock_reading t0 = true;
  inv_after : _start_time self <> None -> _after_id self <> None
}.

(** What holds whatever the clock does. *)
Record well_formed (self : StopWatch) : Prop := {
  wf_idle : _start_time self = None -> _final_time self = None;
  wf_after : _start_time self <> None -> _after_id self <> None
}.

(** ** A session to run the statements on *)

Definition example_config : gmap string string :=
  <["INFLUX_URL" := "http://localhost:8086"]>
    (<["INFLUX_TOKEN" := "secret"]>
      (<["INFLUX_ORG" := "home"]>
        (<["INFLUX_BUCKET" := "rubik"]> ∅))).

Definition example_files : files :=
  {| config_json := Some example_config; rubiks_cube_png := true |}.

(** A config file that is there and holds an empty object. *)
Definition empty_config_files : files :=
  {| config_json := Some ∅; rubiks_cube_png := true |}.

(** Clock readings [100.5], [100.52] and [104.17]. *)
Definition t_start : Py.float := Py.literal 1005 1.
Definition t_tick : Py.float := Py.literal 10052 2.
Definition t_stop : Py.float := Py.literal 10417 2.

(** ** The refresh of the display *)

(** At most one [display_time] callback is queued, the one whose
    identifier [_after_id] holds; none is queued before the start or once
    a time is recorded. *)
Record refresh_invariant (self : StopWatch) : Prop := {
  ri_idle : _start_time self = None -> _final_time self = None;
  ri_queue : after_queue self = [] \/
             exists id, after_queue self = [id] /\ _after_id self = Some id;
  ri_before : _start_time self = None -> after_queue self = [];
  ri_recorded : _final_time self <> None -> after_queue self = [];
  ri_fresh : forall id, id ∈ after_queue self -> (id < after_count self)%nat
}.

(** ** The writes made *)

Definition is_click (ev : event) : bool :=
  match ev with
  | Button _ => true
  | _ => false
  end.

(** A write as [transmit_to_influxdb] makes it on the config [c]. *)
Record write_of_config (c : gmap string string) (call : Influx.write_call) : Prop := {
  wc_url : c !! "INFLUX_URL" = Some (Influx.url call);
  wc_token : c !! "INFLUX_TOKEN" = Some (Influx.token call);
  wc_org : c !! "INFLUX_ORG" = Some (Influx.org call);
  wc_bucket : c !! "INFLUX_BUCKET" = Some (Influx.bucket call);
  wc_measurement : Influx.measurement (Influx.record call) = "solving_time";
  wc_tag : exists o, Influx.tags (Influx.record call) =
                     {[ "cube" := cube_option_value o ]};
  wc_field : exists d, Influx.fields (Influx.record call) =
                       {[ "recorded_time" := d ]}
}.

(** The clicks on the button among the events. *)
Definition clicks (evs : list event) : nat :=
  List.length (List.filter is_click evs).

(** The entry of the dropdown chosen last, ["speed"] when none was. *)
Definition chosen (evs : list event) : cube_option :=
  fold_left (fun o ev => match ev with Choose o' => o' | _ => o end) evs speed.

(** Does the string have a point? *)
Fixpoint has_point (s : string) : bool :=
  match s with
  | EmptyString => false
  | String c s' => Ascii.eqb c "." || has_point s'
  end.

(** ** Durations between two powers of ten

    Exact comparisons of a positive finite float with [10^k]. *)
Definition pow10_le (k : Z) (x : Py.float) : bool :=
  match x with
  | S754_finite false m e => Py.scaled_leb (Py.Scaled 1 0 k) (Py.value m e)
  | _ => false
  end.

Definition lt_pow10 (x : Py.float) (k : Z) : bool :=
  match x with
  | S754_finite false m e => Py.scaled_ltb (Py.value m e) (Py.Scaled 1 0 k)
  | _ => false
  end.

(** * Floats: a later clock reading leaves a non-zero difference *)

Section SubNonZero.
Abbreviation prec := Py.prec.
Abbreviation emax := Py.emax.

Lemma digits2_pos_bounds (m : positive) :
  2 ^ (Z.pos (digits2_pos m) - 1) <= Z.pos m < 2 ^ Z.pos (digits2_pos m).
Proof.
  induction m as [m IH | m IH |]; cbn [digits2_pos].
  - rewrite Pos2Z.inj_succ.
    replace (Z.succ (Z.pos (digits2_pos m)) - 1) with (Z.succ (Z.pos (digits2_pos m) - 1)) by lia.
    rewrite !Z.pow_succ_r by lia. lia.
  - rewrite Pos2Z.inj_succ.
    replace (Z.succ (Z.pos (digits2_pos m)) - 1) with (Z.succ (Z.pos (digits2_pos m) - 1)) by lia.
    rewrite !Z.pow_succ_r by lia. lia.
  - simpl. lia.
Qed.

Lemma shr_1_m (r : shr_record) :
  0 <= shr_m r -> shr_m (shr_1 r) = shr_m r / 2.
Proof.
  destruct r as [m r s]. cbn [shr_m]. intros Hm.
  destruct m as [| p | p]; [reflexivity | | lia].
  destruct p as [p | p |]; cbn [shr_1 shr_m].
  - apply Z.div_unique with 1; lia.
  - apply Z.div_unique with 0; lia.
  - reflexivity.
Qed.

Lemma iter_shr_1_m (p : positive) (r : shr_record) :
  0 <= shr_m r -> shr_m (iter_pos shr_1 p r) = shr_m r / 2 ^ Z.pos p.
Proof.
  revert r. induction p as [p IH | p IH |]; intros r Hr; cbn [iter_pos].
  - assert (H1 : 0 <= shr_m (shr_1 r)) by (rewrite shr_1_m by done; apply Z.div_pos; lia).
    assert (H2 : 0 <= shr_m (iter_pos shr_1 p (shr_1 r))).
    { rewrite IH by done. apply Z.div_pos; lia. }
    rewrite IH, IH, shr_1_m by done.
    rewrite !Z.div_div by lia.
    f_equal.
    replace (Z.pos p~1) with (1 + Z.pos p + Z.pos p) by lia.
    rewrite !Z.pow_add_r by lia. lia.
  - assert (H2 : 0 <= shr_m (iter_pos shr_1 p r)).
    { rewrite IH by done. apply Z.div_pos; lia. }
    rewrite IH, IH by done.
    rewrite !Z.div_div by lia.
    f_equal.
    replace (Z.pos p~0) with (Z.pos p + Z.pos p) by lia.
    rewrite !Z.pow_add_r by lia. lia.
  - rewrite shr_1_m by done. reflexivity.
Qed.

Lemma shr_fexp_pos (m e : Z) (l : location) :
  0 < m -> Py.emin <= e ->
  0 < shr_m (fst (shr_fexp prec emax m e l)) /\
  Py.emin <= snd (shr_fexp prec emax m e l).
Proof.
  intros Hm He. unfold shr_fexp, shr.
  assert (Hrec : shr_m (shr_record_of_loc m l) = m)
    by (destruct l as [|[]]; reflexivity).
  destruct (fexp prec emax (Zdigits2 m + e) - e) as [|p|p] eqn:Hn;
    cbn [fst snd]; rewrite ?Hrec; try (split; lia).
  rewrite iter_shr_1_m by lia. rewrite Hrec.
  destruct m as [|q|q]; try lia. cbn [Zdigits2] in Hn.
  pose proof (digits2_pos_bounds q) as [Hlo _].
  unfold fexp, emin in Hn. unfold Py.emin in *.
  assert (Hp : Z.pos p <= Z.pos (digits2_pos q) - 1)
    by (unfold Py.prec, Py.emax in *; lia).
  split; [| unfold Py.prec, Py.emax in *; lia].
  apply Z.div_str_pos. split; [apply Z.pow_pos_nonneg; lia |].
  eapply Z.le_trans; [| exact Hlo]. apply Z.pow_le_mono_r; lia.
Qed.

Lemma binary_round_aux_truthy (s : bool) (m e : Z) (l : location) :
  0 < m -> Py.emin <= e ->
  Py.truthy (binary_round_aux prec emax s m e l) = true.
Proof.
  intros Hm He. unfold binary_round_aux.
  destruct (shr_fexp_pos m e l Hm He) as [H1 H2].
  destruct (shr_fexp prec emax m e l) as [mrs' e']. cbn [fst snd] in H1, H2.
  set (m2 := round_nearest_even (shr_m mrs') (loc_of_shr_record mrs')).
  assert (Hm2 : 0 < m2).
  { unfold m2, round_nearest_even.
    destruct (loc_of_shr_record mrs') as [|[]]; try lia.
    destruct (Z.even (shr_m mrs')); lia. }
  destruct (shr_fexp_pos m2 e' loc_Exact Hm2 H2) as [H3 _].
  destruct (shr_fexp prec emax m2 e' loc_Exact) as [mrs'' e''].
  cbn [fst] in H3.
  destruct (shr_m mrs''); try lia.
  destruct (e'' <=? emax - prec); reflexivity.
Qed.

Lemma binary_normalize_truthy (z e : Z) (szero : bool) :
  z <> 0 -> Py.emin <= e ->
  Py.truthy (binary_normalize prec emax z e szero) = true.
Proof.
  intros Hz He.
  assert (Hround : forall s m, Py.truthy (binary_round prec emax s m e) = true).
  { intros s m. unfold binary_round.
    set (e' := fexp prec emax (Z.pos (digits2_pos m) + e)).
    assert (He' : Py.emin <= e') by (unfold e', fexp, emin, Py.emin; lia).
    assert (Hsnd : Py.emin <= snd (shl_align m e e'))
      by (unfold shl_align; destruct (e' - e); cbn [snd]; lia).
    destruct (shl_align m e e') as [mz ez]. cbn [snd] in Hsnd.
    apply binary_round_aux_truthy; lia. }
  destruct z; [lia | apply Hround | apply Hround].
Qed.

(** The mantissa [shl_align] returns: the value is kept. *)
Lemma shl_align_fst (m : positive) (e e' : Z) :
  e' <= e -> Z.pos (fst (shl_align m e e')) = Z.pos m * 2 ^ (e - e').
Proof.
  intros Hle. unfold shl_align.
  destruct (e' - e) as [|d|d] eqn:Hd; cbn [fst]; try lia.
  - replace (e - e') with 0 by lia. lia.
  - replace (e - e') with (Z.pos d) by lia.
    clear Hd Hle. induction d as [| d IH] using Pos.peano_ind.
    + cbn. lia.
    + rewrite Pos.iter_succ, Pos2Z.inj_succ, Z.pow_succ_r by lia.
      rewrite Pos2Z.inj_xO, IH. lia.
Qed.

Lemma valid_binary_emin (s : bool) (m : positive) (e : Z) :
  valid_binary prec emax (S754_finite s m e) = true -> Py.emin <= e.
Proof.
  cbn [valid_binary]. unfold bounded, canonical_mantissa, fexp, emin, Py.emin.
  intros H. apply andb_true_iff in H as [H _]. apply Z.eqb_eq in H. lia.
Qed.

(** In a canonical float the mantissa fixes the exponent's binade: two
    floats of the same value have the same exponent. *)
Lemma canonical_same_value (m1 m2 : positive) (e1 e2 : Z) :
  canonical_mantissa prec emax m1 e1 = true ->
  canonical_mantissa prec emax m2 e2 = true ->
  e1 <= e2 -> Z.pos m1 = Z.pos m2 * 2 ^ (e2 - e1) -> e1 = e2.
Proof.
  unfold canonical_mantissa. intros H1 H2 Hle Heq.
  apply Z.eqb_eq in H1, H2.
  pose proof (digits2_pos_bounds m1) as [L1 U1].
  pose proof (digits2_pos_bounds m2) as [L2 U2].
  set (d1 := Z.pos (digits2_pos m1)) in *.
  set (d2 := Z.pos (digits2_pos m2)) in *.
  assert (Hd : d1 = d2 + (e2 - e1)).
  { assert (Hlt1 : 2 ^ (d1 - 1) < 2 ^ (d2 + (e2 - e1))).
    { rewrite Z.pow_add_r by lia. nia. }
    assert (Hlt2 : 2 ^ (d2 - 1 + (e2 - e1)) < 2 ^ d1).
    { rewrite Z.pow_add_r by lia. nia. }
    apply Z.pow_lt_mono_r_iff in Hlt1; [| lia | lia].
    apply Z.pow_lt_mono_r_iff in Hlt2; [| lia | lia].
    lia. }
  replace (d1 + e1) with (d2 + e2) in H1 by lia. lia.
Qed.

Lemma SFcompare_finite_refl (s : bool) (m : positive) (e : Z) :
  SFcompare (S754_finite s m e) (S754_finite s m e) = Some Eq.
Proof.
  cbn. rewrite Z.compare_refl, Pos.compare_cont_refl. destruct s; reflexivity.
Qed.

(** Gradual underflow: the difference of two distinct floats is not zero. *)
Lemma float_sub_truthy (x y : Py.float) :
  clock_reading x = true -> clock_reading y = true ->
  Py.float_lt y x = true ->
  Py.truthy (Py.float_sub x y) = true.
Proof.
  unfold clock_reading. intros Hx Hy Hlt.
  apply andb_true_iff in Hx as [Fx Vx]. apply andb_true_iff in Hy as [Fy Vy].
  destruct x as [sx | sx | | sx mx ex]; try discriminate;
    destruct y as [sy | sy | | sy my ey]; try discriminate;
    try reflexivity.
  unfold Py.float_sub, SFsub.
  pose proof (valid_binary_emin _ _ _ Vx) as Ex.
  pose proof (valid_binary_emin _ _ _ Vy) as Ey.
  apply binary_normalize_truthy; [| lia].
  rewrite !shl_align_fst by lia.
  cbn [valid_binary] in Vx, Vy. unfold bounded in Vx, Vy.
  apply andb_true_iff in Vx as [Cx _]. apply andb_true_iff in Vy as [Cy _].
  assert (Px : 0 < 2 ^ (ex - ex `min` ey)) by (apply Z.pow_pos_nonneg; lia).
  assert (Py' : 0 < 2 ^ (ey - ex `min` ey)) by (apply Z.pow_pos_nonneg; lia).
  intros Hz.
  assert (Hs : sx = sy)
    by (destruct sx, sy; cbn [cond_Zopp] in Hz; try reflexivity; nia).
  subst sy.
  assert (Hv : Z.pos mx * 2 ^ (ex - ex `min` ey) = Z.pos my * 2 ^ (ey - ex `min` ey))
    by (destruct sx; cbn [cond_Zopp] in Hz; lia).
  assert (He : ex = ey).
  { destruct (Z.le_ge_cases ex ey) as [Hle | Hle].
    - rewrite Z.min_l in Hv by lia. rewrite Z.sub_diag in Hv.
      apply (canonical_same_value mx my ex ey Cx Cy Hle). lia.
    - rewrite Z.min_r in Hv by lia. rewrite Z.sub_diag in Hv.
      symmetry. apply (canonical_same_value my mx ey ex Cy Cx Hle). lia. }
  subst ey. rewrite Z.min_id, Z.sub_diag in Hv.
  assert (mx = my) by lia. subst my.
  unfold Py.float_lt, SFltb in Hlt.
  rewrite SFcompare_finite_refl in Hlt. discriminate.
Qed.
End SubNonZero.

(** * [str] and [format_seconds] *)

(** ** What the model of [repr] prints, on known values *)

Example str_examples :
  map Py.str
    [Py.literal 0 0; Py.literal 5 2; Py.literal 36614567 4; Py.literal 1 7;
     Py.literal 900000 1; Py.literal 1 4; Py.literal 15 6; Py.literal 1 1;
     Py.float_div (Py.float_of_Z 1) (Py.float_of_Z 3);
     Py.float_sub (Py.literal 10417 2) (Py.literal 1005 1);
     S754_finite false 5404319552844596 (-54);
     Py.float_of_Z (10 ^ 15); Py.float_of_Z (10 ^ 16); Py.float_of_Z (10 ^ 23);
     Py.float_of_Z (2 ^ 55); Py.float_of_Z 123456789012345680;
     S754_finite false 1 (-1074); SFopp (Py.literal 5 1);
     S754_zero true; S754_infinity false; S754_nan]
  = ["0.0"; "0.05"; "3661.4567"; "1e-07"; "90000.0"; "0.0001"; "1.5e-05"; "0.1";
     "0.3333333333333333"; "3.6700000000000017"; "0.30000000000000004";
     "1000000000000000.0"; "1e+16"; "1e+23";
     "3.602879701896397e+16"; "1.2345678901234568e+17";
     "5e-324"; "-0.5"; "-0.0"; "inf"; "nan"].
Proof. vm_compute. reflexivity. Qed.

(** Where notation or range leave the stopwatch's durations:
    [format_seconds] cuts into the exponent, or raises. *)
Example format_seconds_examples :
  map format_seconds
    [Py.literal 15 6; Py.float_of_Z (10 ^ 16); Py.float_of_Z (15 * 10 ^ 15);
     Py.float_of_Z (2 ^ 56); SFopp (Py.literal 5 1); S754_infinity false]
  = [Py.Ok "00:00:00.5e-"; Py.Raise Py.IndexError; Py.Ok "02:40:00.5e+";
     Py.Raise Py.OSError; Py.Ok "23:59:59.5"; Py.Raise Py.IndexError].
Proof. vm_compute. reflexivity. Qed.

(** ** Strings of digits around one point *)

Lemma is_digit_not_dot (c : ascii) : is_digit c = true -> Ascii.eqb c "." = false.
Proof.
  intros H. destruct (Ascii.eqb_spec c "."); [subst; discriminate | reflexivity].
Qed.

Lemma split_digits (s : string) : all_digits s = true -> Py.split "." s = [s].
Proof.
  induction s as [| c s IH]; [reflexivity |]. cbn [all_digits Py.split].
  intros H. apply andb_true_iff in H as [Hc Hs].
  rewrite (is_digit_not_dot c Hc), (IH Hs). reflexivity.
Qed.

Lemma split_positional (ip fr : string) :
  all_digits ip = true -> all_digits fr = true ->
  Py.split "." (ip +:+ "." +:+ fr) = [ip; fr].
Proof.
  intros Hip Hfr. induction ip as [| c ip IH].
  - change (Py.split "." (String "." fr) = [""; fr]).
    cbn [Py.split]. rewrite Ascii.eqb_refl, (split_digits fr Hfr). reflexivity.
  - cbn [all_digits] in Hip. apply andb_true_iff in Hip as [Hc Hip].
    simpl. rewrite (is_digit_not_dot c Hc), (IH Hip). reflexivity.
Qed.

Lemma plain_app (s1 s2 : string) : plain (s1 +:+ s2) = plain s1 && plain s2.
Proof.
  induction s1 as [| c s1 IH]; [reflexivity |].
  simpl. rewrite IH. apply andb_assoc.
Qed.

Lemma plain_digits (s : string) : all_digits s = true -> plain s = true.
Proof.
  induction s as [| c s IH]; [reflexivity |]. cbn [all_digits plain].
  intros H. apply andb_true_iff in H as [Hc Hs].
  unfold plain_char. rewrite Hc, (IH Hs). reflexivity.
Qed.

Lemma plain_positional (ip fr : string) :
  all_digits ip = true -> all_digits fr = true ->
  plain (ip +:+ "." +:+ fr) = true.
Proof.
  intros Hip Hfr. rewrite !plain_app, (plain_digits ip Hip), (plain_digits fr Hfr).
  reflexivity.
Qed.

(** ** Positional notation is only used below [10^16] *)

Lemma value_below_pow10_bits (m : positive) (e : Z) :
  Py.scaled_ltb (Py.value m e) (Py.Scaled 1 0 (Z.max (Py.bits m e) 0)) = true.
Proof.
  unfold Py.scaled_ltb, Py.scaled_compare, Py.scale_to, Py.value, Py.bits.
  cbn [Py.coef Py.exp2 Py.exp10].
  set (L := Z.log2 (Z.pos m)).
  assert (HL : 0 <= L) by apply Z.log2_nonneg.
  assert (Hm : Z.pos m < 2 ^ (L + 1)).
  { pose proof (Z.log2_spec (Z.pos m)) as H. unfold L.
    replace (Z.log2 (Z.pos m) + 1) with (Z.succ (Z.log2 (Z.pos m))) by lia. lia. }
  set (K := Z.max (L + 1 + e) 0).
  rewrite (Z.min_l 0 K) by lia. rewrite !Z.sub_0_r, Z.pow_0_r, Z.mul_1_r, Z.mul_1_l.
  assert (H210 : forall n, 0 <= n -> 2 ^ n <= 10 ^ n)
    by (intros n Hn; apply Z.pow_le_mono_l; lia).
  assert (Hlt : Z.pos m * 2 ^ (e - e `min` 0) < 2 ^ (0 - e `min` 0) * 10 ^ K).
  { destruct (Z.le_gt_cases 0 e) as [He | He].
    - rewrite Z.min_r by lia. rewrite Z.sub_0_r. cbn [Z.sub Z.opp Z.add Z.pow].
      unfold K. rewrite Z.max_l by lia.
      pose proof (H210 (L + 1 + e) ltac:(lia)) as H.
      rewrite (Z.pow_add_r 2 (L + 1) e) in H by lia.
      assert (0 < 2 ^ e) by (apply Z.pow_pos_nonneg; lia). nia.
    - rewrite Z.min_l by lia. rewrite Z.sub_diag, Z.pow_0_r, Z.mul_1_r.
      replace (0 - e) with (- e) by lia.
      assert (Hpe : 0 < 2 ^ (- e)) by (apply Z.pow_pos_nonneg; lia).
      destruct (Z.le_gt_cases 0 (L + 1 + e)) as [Hk | Hk].
      + unfold K. rewrite Z.max_l by lia.
        pose proof (H210 (L + 1 + e) Hk) as H.
        replace (L + 1) with (- e + (L + 1 + e)) in Hm by lia.
        rewrite Z.pow_add_r in Hm by lia. nia.
      + unfold K. rewrite Z.max_r by lia. rewrite Z.pow_0_r, Z.mul_1_r.
        assert (2 ^ (L + 1) <= 2 ^ (- e)) by (apply Z.pow_le_mono_r; lia). lia. }
  apply Z.compare_lt_iff in Hlt. rewrite Hlt. reflexivity.
Qed.

Lemma find_decpt_above (m : positive) (e : Z) (fuel : nat) (k : Z) :
  Py.scaled_ltb (Py.value m e) (Py.Scaled 1 0 (Py.find_decpt m e fuel k)) = true.
Proof.
  revert k. induction fuel as [| fuel IH]; intros k; cbn [Py.find_decpt].
  - apply value_below_pow10_bits.
  - destruct (Py.scaled_ltb (Py.value m e) (Py.Scaled 1 0 k)) eqn:Hk;
      [exact Hk | apply IH].
Qed.

Lemma below_pow10_floor (m : positive) (e k : Z) :
  Py.scaled_ltb (Py.value m e) (Py.Scaled 1 0 k) = true -> k <= 16 ->
  0 <= Z.shiftl (Z.pos m) e < 10 ^ 16.
Proof.
  unfold Py.scaled_ltb, Py.scaled_compare, Py.scale_to, Py.value.
  cbn [Py.coef Py.exp2 Py.exp10]. intros H Hk.
  destruct (_ ?= _) eqn:Hc in H; try discriminate. clear H.
  rewrite Z.mul_1_l in Hc.
  split; [apply Z.shiftl_nonneg; lia |].
  assert (H10 : 0 < 10 ^ (0 - 0 `min` k)) by (apply Z.pow_pos_nonneg; lia).
  assert (Hk16 : 10 ^ (k - 0 `min` k) <= 10 ^ 16 * 10 ^ (0 - 0 `min` k)).
  { rewrite <- Z.pow_add_r by lia. apply Z.pow_le_mono_r; lia. }
  set (A := 10 ^ (0 - 0 `min` k)) in *. set (B := 10 ^ (k - 0 `min` k)) in *.
  destruct (Z.le_gt_cases 0 e) as [He | He].
  - rewrite Z.min_r in Hc by lia. rewrite Z.sub_0_r, Z.sub_diag in Hc.
    rewrite Z.pow_0_r, Z.mul_1_l in Hc.
    rewrite Z.shiftl_mul_pow2 by lia.
    apply -> Z.compare_lt_iff in Hc.
    set (X := Z.pos m * 2 ^ e) in *. clearbody A B X. nia.
  - rewrite Z.min_l in Hc by lia. rewrite Z.sub_diag, Z.pow_0_r, Z.mul_1_r in Hc.
    replace (0 - e) with (- e) in Hc by lia.
    rewrite Z.shiftl_div_pow2 by lia.
    assert (Hpe : 0 < 2 ^ (- e)) by (apply Z.pow_pos_nonneg; lia).
    apply -> Z.compare_lt_iff in Hc.
    set (P := 2 ^ (- e)) in *. clearbody A B P.
    apply Z.div_lt_upper_bound; [lia |]. nia.
Qed.

Lemma year_of_days_bounds (days : Z) :
  0 <= days < 2 * 10 ^ 11 -> 0 <= Py.year_of_days days <= 1500000000.
Proof.
  change (2 * 10 ^ 11) with 200000000000.
  intros Hd. unfold Py.year_of_days.
  set (z := days + 719468).
  set (era := z / 146097). set (doe := z mod 146097).
  assert (Hz : z = 146097 * era + doe) by (apply Z.div_mod; lia).
  assert (Hdoe : 0 <= doe < 146097) by (apply Z.mod_pos_bound; lia).
  clearbody era doe. subst z.
  set (yoe := (doe - doe / 1460 + doe / 36524 - doe / 146096) / 365).
  assert (Hyoe : 0 <= yoe <= 400) by (subst yoe; Z.div_mod_to_equations; lia).
  clearbody yoe.
  set (doy := doe - (365 * yoe + yoe / 4 - yoe / 100)). clearbody doy.
  destruct ((5 * doy + 2) / 153 <? 10); lia.
Qed.

Lemma gmtime_in_range (x : Py.float) :
  Py.is_finite x = true -> 0 <= Py.floor x < 10 ^ 16 ->
  exists year,
    Py.fits_int year = true /\
    Py.gmtime x =
    Py.Ok {| Py.tm_year := year;
             Py.tm_hour := Py.floor x mod 86400 / 3600;
             Py.tm_min := Py.floor x mod 3600 / 60;
             Py.tm_sec := Py.floor x mod 60 |}.
Proof.
  intros Hfin Ht. exists (Py.year_of_days (Py.floor x / 86400)).
  assert (Hrange : (Py.floor x <? Py.TIME_T_MIN) || (Py.TIME_T_MAX + 1 <? Py.floor x) = false).
  { change (10 ^ 16) with 10000000000000000 in Ht.
    change Py.TIME_T_MIN with (-9223372036854775808).
    change Py.TIME_T_MAX with 9223372036854775807.
    apply orb_false_iff; split; apply Z.ltb_ge; lia. }
  assert (Hyear : 0 <= Py.year_of_days (Py.floor x / 86400) <= 1500000000).
  { apply year_of_days_bounds. change (10 ^ 16) with 10000000000000000 in Ht.
    change (2 * 10 ^ 11) with 200000000000.
    split; [apply Z.div_pos; lia | apply Z.div_lt_upper_bound; lia]. }
  assert (Hfits : forall n, -1900 <= n <= 1500000000 -> Py.fits_int n = true).
  { intros n Hn. unfold Py.fits_int.
    change Py.INT_MIN with (-2147483648). change Py.INT_MAX with 2147483647.
    apply andb_true_iff; split; apply Z.leb_le; lia. }
  split; [apply Hfits; lia |].
  destruct x; try discriminate; unfold Py.gmtime; rewrite Hrange, Hfits by lia;
    reflexivity.
Qed.

Lemma gmtime_fields (x : Py.float) (t : Py.struct_time) :
  Py.gmtime x = Py.Ok t ->
  Py.tm_hour t = Py.floor x mod 86400 / 3600 /\
  Py.tm_min t = Py.floor x mod 3600 / 60 /\
  Py.tm_sec t = Py.floor x mod 60.
Proof.
  unfold Py.gmtime. intros H.
  destruct x; try discriminate;
    destruct (_ || _); try discriminate;
    destruct (Py.fits_int _); try discriminate;
    injection H as <-; auto.
Qed.

Lemma str_positional (x : Py.float) (ip fr : string) :
  Py.str x = ip +:+ "." +:+ fr ->
  all_digits ip = true -> all_digits fr = true ->
  Py.is_finite x = true /\ 0 <= Py.floor x < 10 ^ 16.
Proof.
  intros Hstr Hip Hfr.
  pose proof (plain_positional ip fr Hip Hfr) as Hplain. rewrite <- Hstr in Hplain.
  clear Hstr. destruct x as [s | s | | s m e].
  - split; [reflexivity | cbn; lia].
  - destruct s; discriminate.
  - discriminate.
  - split; [reflexivity |]. unfold Py.str in Hplain.
    destruct (Py.dtoa m e) as [ds decpt] eqn:Hdtoa.
    destruct s; [rewrite plain_app in Hplain; discriminate |].
    change (plain (Py.format_float_short ds decpt) = true) in Hplain.
    unfold Py.format_float_short in Hplain.
    destruct ((decpt <=? -4) || (16 <? decpt)) eqn:Hexp.
    { rewrite !plain_app in Hplain.
      apply andb_true_iff in Hplain as [_ Hplain].
      apply andb_true_iff in Hplain as [Hplain _]. discriminate. }
    apply orb_false_iff in Hexp as [_ Hexp]. apply Z.ltb_ge in Hexp.
    unfold Py.dtoa in Hdtoa.
    destruct (Py.shortest_from m e (Py.decpt_of_value m e) 16 1) as [c n].
    apply pair_equal_spec in Hdtoa as [_ Hdecpt].
    assert (Hk : Py.decpt_of_value m e <= 16) by (destruct (c =? 10 ^ n); lia).
    cbn [Py.floor cond_Zopp].
    apply (below_pow10_floor m e (Py.decpt_of_value m e)); [| exact Hk].
    apply find_decpt_above.
Qed.

(** [format_seconds] on a float printed in positional notation: the clock
    fields of the floored value, then the first three characters after
    the point. *)
Lemma format_seconds_positional (x : Py.float) (ip fr : string) :
  Py.str x = ip +:+ "." +:+ fr ->
  all_digits ip = true -> all_digits fr = true ->
  format_seconds x =
  Py.Ok (Py.two_digits (Py.floor x mod 86400 / 3600) +:+ ":" +:+
         Py.two_digits (Py.floor x mod 3600 / 60) +:+ ":" +:+
         Py.two_digits (Py.floor x mod 60) +:+ "." +:+ Py.take 3 fr).
Proof.
  intros Hstr Hip Hfr.
  destruct (str_positional x ip fr Hstr Hip Hfr) as [Hfin Ht].
  unfold format_seconds.
  rewrite Hstr, (split_positional ip fr Hip Hfr). cbn [Py.getitem lookup list_lookup].
  destruct (gmtime_in_range x Hfin Ht) as (year & Hyear & ->).
  unfold Py.strftime. cbn [Py.tm_year]. rewrite Hyear.
  reflexivity.
Qed.

Lemma is_digit_digit_char (d : Z) : 0 <= d <= 9 -> is_digit (Py.digit_char d) = true.
Proof.
  intros H.
  assert (Hd : d = 0 \/ d = 1 \/ d = 2 \/ d = 3 \/ d = 4 \/ d = 5 \/ d = 6 \/
               d = 7 \/ d = 8 \/ d = 9) by lia.
  repeat (destruct Hd as [-> | Hd]; [reflexivity |]). subst d. reflexivity.
Qed.



Lemma hour_of_day (t : Z) : t mod 86400 / 3600 = t / 3600 mod 24.
Proof.
  change 86400 with (3600 * 24). rewrite Z.rem_mul_r by lia.
  rewrite (Z.mul_comm 3600), Z.div_add by lia.
  rewrite Z.mod_div by lia. lia.
Qed.

(** A fraction printed with fewer than three digits stays that short. *)
Lemma format_seconds_short_fraction (x : Py.float) (ip fr : string) :
  Py.str x = ip +:+ "." +:+ fr ->
  all_digits ip = true -> all_digits fr = true ->
  (String.length fr < 3)%nat ->
  exists s, format_seconds x = Py.Ok s /\ matches_HH_MM_SS_mmm s = false.
Proof.
  intros Hstr Hip Hfr Hlen. eexists.
  split; [exact (format_seconds_positional x ip fr Hstr Hip Hfr) |].
  unfold Py.two_digits.
  destruct fr as [| f1 [| f2 [| f3 fr]]]; cbn in Hlen; try lia; reflexivity.
Qed.

(** C1 (code at fault): [format_seconds] copies the digits after the point
    as they are, at most three of them, and pads nothing: [0.05] gives
    ["00:00:00.05"] and [0.0] gives ["00:00:00.0"], neither of the shape
    [HH:MM:SS.mmm] of the hour:minute:second.milliseconds format the
    function's docstring announces. *)
Theorem format_seconds_pads_nothing :
  format_seconds (Py.literal 5 2) = Py.Ok "00:00:00.05" /\
  matches_HH_MM_SS_mmm "00:00:00.05" = false /\
  format_seconds (Py.literal 0 0) = Py.Ok "00:00:00.0" /\
  matches_HH_MM_SS_mmm "00:00:00.0" = false.
Proof. vm_compute. repeat split. Qed.

(** C5 (as stated, refuted): 25 hours, [90000.0] seconds, print with the
    hours field ["01"], not ["25"]. *)
Lemma format_seconds_25_hours :
  Py.floor (Py.literal 900000 1) = 25 * 3600 /\
  format_seconds (Py.literal 900000 1) = Py.Ok "01:00:00.0".
Proof. vm_compute. split; reflexivity. Qed.

(** C5 (amended): for a duration of 24 hours or more, whenever
    [format_seconds] returns a string, and it does when the float prints
    in positional notation, the hours field is the hour of the day of the
    whole seconds, the count of hours modulo 24: it wraps at each day
    boundary and stays below 24. *)
Theorem format_seconds_hours_wrap (x : Py.float) :
  86400 <= Py.floor x ->
  (forall s, format_seconds x = Py.Ok s ->
     Py.take 2 s = Py.two_digits (Py.floor x / 3600 mod 24)) /\
  (forall ip fr,
     Py.str x = ip +:+ "." +:+ fr ->
     all_digits ip = true -> all_digits fr = true ->
     exists s, format_seconds x = Py.Ok s) /\
  0 <= Py.floor x / 3600 mod 24 < 24 /\ 24 <= Py.floor x / 3600.
Proof.
  intros Hday. split; [| split; [| split]].
  - intros s Hs. unfold format_seconds in Hs.
    destruct (Py.getitem _ _) as [fraction | e]; [| discriminate].
    destruct (Py.gmtime x) as [t | e] eqn:Hgm; [| discriminate].
    destruct (gmtime_fields x t Hgm) as (Hh & _ & _).
    unfold Py.strftime in Hs. destruct (Py.fits_int _); [| discriminate].
    injection Hs as <-. cbn [Py.strftime_fields]. rewrite Hh, hour_of_day.
    reflexivity.
  - intros ip fr Hstr Hip Hfr. eexists.
    apply (format_seconds_positional x ip fr Hstr Hip Hfr).
  - apply Z.mod_pos_bound. lia.
  - apply Z.div_le_lower_bound; lia.
Qed.

Lemma format_seconds_hours_wrap_witness :
  Py.take 2 "01:00:00.0" = "01" /\
  (exists s, format_seconds (Py.literal 900000 1) = Py.Ok s) /\
  Py.floor (Py.literal 900000 1) / 3600 = 25.
Proof.
  assert (Hday : 86400 <= Py.floor (Py.literal 900000 1)) by (vm_compute; congruence).
  destruct (format_seconds_hours_wrap (Py.literal 900000 1) Hday) as (Hs & Hok & _).
  split; [| split].
  - exact (Hs "01:00:00.0" eq_refl).
  - exact (Hok "90000" "0" eq_refl eq_refl eq_refl).
  - reflexivity.
Defined.



(** C9: [format_seconds] is not total on the non-negative floats:
    [1e-07] prints as ["1e-07"], which has no point, so [split(".")] gives
    one piece and [[1]] raises [IndexError]. *)
Theorem format_seconds_not_total :
  exists x : Py.float,
    Py.float_lt (Py.literal 0 0) x = true /\
    Py.str x = "1e-07" /\
    Py.split "." (Py.str x) = [Py.str x] /\
    format_seconds x = Py.Raise Py.IndexError.
Proof. exists (Py.literal 1 7). vm_compute. repeat split. Qed.

(** * The stopwatch *)

Ltac unfold_methods :=
  unfold step, callback, handle_user_event, display_time, start, stop, restart,
    transmit_to_influxdb, after, after_cancel, config_getitem,
    mbind, M_bind, bind, gets, modify, ret, raise, lift in *.

Lemma init_invariant (fs : files) (w : StopWatch) :
  __init__ fs = Py.Ok w -> invariant w.
Proof.
  unfold __init__, get_config. intros H.
  destruct (config_json fs); [| discriminate].
  destruct (rubiks_cube_png fs); [| discriminate].
  injection H as <-. split; cbn; intros; (done || eauto).
Qed.

Lemma step_invariant (self : StopWatch) (ev : event) :
  invariant self -> clock_ok self ev = true -> invariant (step self ev).
Proof.
  intros [Hidle Htrue Hbtn Hpacked Hclock Hafter] Hok.
  destruct self as [c st ft aid lbl btn packed cube q n calls].
  cbn in Hidle, Htrue, Hbtn, Hpacked, Hclock, Hafter.
  destruct ev as [keysym now | id now | outcome | o]; unfold_methods; cbn in Hok |- *.
  - apply andb_true_iff in Hok as [Hnow Hlater].
    repeat (case_match; simplify_eq/=); split; cbn; intros; simplify_eq/=; eauto.
    all: apply float_sub_truthy; eauto.
  - repeat (case_match; simplify_eq/=); split; cbn; intros; simplify_eq/=; eauto.
  - repeat (case_match; simplify_eq/=); split; cbn; intros; simplify_eq/=; eauto.
  - split; cbn; eauto.
Qed.

Lemma run_invariant (evs : list event) (self : StopWatch) :
  invariant self -> clock_moves_on self evs = true -> invariant (run self evs).
Proof.
  revert self. induction evs as [| ev evs IH]; intros self Hinv Hclock; [exact Hinv |].
  cbn [clock_moves_on] in Hclock. apply andb_true_iff in Hclock as [Hev Hevs].
  apply (IH (step self ev)); [apply step_invariant |]; assumption.
Qed.

Lemma invariant_state (self : StopWatch) :
  invariant self ->
  match state_of self with
  | Idle => _start_time self = None /\ _final_time self = None
  | Running => _start_time self <> None /\ _final_time self = None
  | Stopped | Sent => _start_time self <> None /\ _final_time self <> None
  end.
Proof.
  intros [Hidle Htrue Hbtn Hpacked Hclock Hafter]. unfold state_of, truth.
  destruct (_start_time self) as [t0 |]; [| auto].
  destruct (_final_time self) as [d |] eqn:Hft; cbn.
  - rewrite (Htrue d eq_refl). cbn. destruct (String.eqb _ _); split; congruence.
  - split; congruence.
Qed.


Lemma key_step_table (self : StopWatch) (keysym : string) (now : Py.float) :
  invariant self -> clock_ok self (Key keysym now) = true ->
  let self' := step self (Key keysym now) in
  state_of self' = spec_next (state_of self) (spec_key (state_of self) keysym) /\
  match spec_key (state_of self) keysym with
  | DoStart =>
      state_of self = Idle /\
      _start_time self' = Some now /\ _final_time self' = None
  | DoStop =>
      state_of self = Running /\
      exists t0, _start_time self = Some t0 /\
                 _start_time self' = Some t0 /\
                 _final_time self' = Some (Py.float_sub now t0)
  | DoReset =>
      (state_of self = Stopped \/ state_of self = Sent) /\
      _start_time self' = None /\ _final_time self' = None
  | Ignored => self' = self
  end.
Proof.
  intros [Hidle Htrue Hbtn Hpacked Hclock Hafter] Hok.
  destruct self as [c st ft aid lbl btn packed cube q n calls].
  cbn in Hidle, Htrue, Hbtn, Hpacked, Hclock, Hafter, Hok.
  apply andb_true_iff in Hok as [Hnow Hlater].
  unfold state_of, spec_key, spec_next, truth. unfold_methods.
  destruct st as [t0 |]; [| rewrite (Hidle eq_refl) in *].
  - destruct ft as [d |].
    + pose proof (Htrue d eq_refl) as Hd.
      destruct (String.eqb_spec keysym "space") as [-> | Hsp];
        [| destruct (String.eqb_spec keysym "a") as [-> | Ha]]; cbn;
        rewrite ?Hd; cbn;
        destruct (String.eqb btn "Data sent to InfluxDb!"); cbn;
        rewrite ?Hd; cbn; auto.
    + destruct (Hbtn eq_refl) as [-> ->].
      destruct aid as [id |]; [| exfalso; apply Hafter; congruence].
      destruct (String.eqb_spec keysym "space") as [-> | Hsp];
        [| destruct (String.eqb_spec keysym "a") as [-> | Ha]]; cbn; auto.
      assert (Ht : Py.truthy (Py.float_sub now t0) = true)
        by (apply float_sub_truthy; auto).
      destruct (format_seconds (Py.float_sub now t0)); cbn; rewrite Ht; cbn;
        eauto 10.
  - destruct (String.eqb_spec keysym "space") as [-> | Hsp];
      [| destruct (String.eqb_spec keysym "a") as [-> | Ha]]; cbn; auto.
Qed.

(** Why the clock has to move on: were a second press of the key to read
    the very instant of the first, the recorded time would be [0.0], which
    the handler's guards take for no recorded time. *)
Example stop_at_the_start_instant :
  let self := run (initial example_config)
                [Key "space" t_start; Key "space" t_start] in
  clock_moves_on (initial example_config)
    [Key "space" t_start; Key "space" t_start] = false /\
  _final_time self = Some (S754_zero false) /\ state_of self = Running.
Proof. vm_compute. repeat split. Qed.

(** C2: in every state the program reaches, a key press does what the
    transition table says.  The start/stop key starts the session only
    when it is idle (the start instant is the clock reading, the state
    becomes [Running]) and stops it only when it is running (the recorded
    time is set to the elapsed time, the state becomes [Stopped]); the
    reset key resets it only when it is stopped or sent (the recorded time
    is cleared, the state becomes [Idle]); every other key press leaves
    the object as it is. *)
Theorem handle_user_event_transition_table
    (fs : files) (w0 : StopWatch) (evs : list event)
    (keysym : string) (now : Py.float) :
  __init__ fs = Py.Ok w0 ->
  clock_moves_on w0 evs = true ->
  clock_ok (run w0 evs) (Key keysym now) = true ->
  let self := run w0 evs in
  let self' := step self (Key keysym now) in
  state_of self' = spec_next (state_of self) (spec_key (state_of self) keysym) /\
  match spec_key (state_of self) keysym with
  | DoStart =>
      state_of self = Idle /\
      _start_time self' = Some now /\ _final_time self' = None
  | DoStop =>
      state_of self = Running /\
      exists t0, _start_time self = Some t0 /\
                 _start_time self' = Some t0 /\
                 _final_time self' = Some (Py.float_sub now t0)
  | DoReset =>
      (state_of self = Stopped \/ state_of self = Sent) /\
      _start_time self' = None /\ _final_time self' = None
  | Ignored => self' = self
  end.
Proof.
  intros Hinit Hclock Hok self self'.
  apply key_step_table; [| exact Hok].
  apply run_invariant; [apply (init_invariant fs) |]; assumption.
Qed.

Lemma handle_user_event_transition_table_witness :
  let self := run (initial example_config) [Key "space" t_start] in
  let self' := step self (Key "space" t_stop) in
  state_of self' = spec_next (state_of self) (spec_key (state_of self) "space") /\
  match spec_key (state_of self) "space" with
  | DoStart =>
      state_of self = Idle /\
      _start_time self' = Some t_stop /\ _final_time self' = None
  | DoStop =>
      state_of self = Running /\
      exists t0, _start_time self = Some t0 /\
                 _start_time self' = Some t0 /\
                 _final_time self' = Some (Py.float_sub t_stop t0)
  | DoReset =>
      (state_of self = Stopped \/ state_of self = Sent) /\
      _start_time self' = None /\ _final_time self' = None
  | Ignored => self' = self
  end.
Proof.
  apply (handle_user_event_transition_table example_files (initial example_config)
           [Key "space" t_start] "space" t_stop); vm_compute; reflexivity.
Defined.

(** ** The start instant *)

Lemma init_well_formed (fs : files) (w : StopWatch) :
  __init__ fs = Py.Ok w -> well_formed w.
Proof.
  unfold __init__, get_config. intros H.
  destruct (config_json fs); [| discriminate].
  destruct (rubiks_cube_png fs); [| discriminate].
  injection H as <-. split; cbn; intros; done.
Qed.

Lemma step_well_formed (self : StopWatch) (ev : event) :
  well_formed self -> well_formed (step self ev).
Proof.
  intros [Hidle Hafter].
  destruct self as [c st ft aid lbl btn packed cube q n calls].
  cbn in Hidle, Hafter.
  destruct ev as [keysym now | id now | outcome | o]; unfold_methods; cbn.
  - repeat (case_match; simplify_eq/=); split; cbn; intros; simplify_eq/=; eauto.
  - repeat (case_match; simplify_eq/=); split; cbn; intros; simplify_eq/=; eauto.
  - repeat (case_match; simplify_eq/=); split; cbn; intros; simplify_eq/=; eauto.
  - split; cbn; eauto.
Qed.

Lemma run_well_formed (evs : list event) (self : StopWatch) :
  well_formed self -> well_formed (run self evs).
Proof.
  revert self. induction evs as [| ev evs IH]; intros self Hwf; [exact Hwf |].
  apply (IH (step self ev)), step_well_formed, Hwf.
Qed.

Lemma stop_keeps_start_time (self : StopWatch) (now : Py.float) :
  _start_time (fst (stop now self)) = _start_time self.
Proof.
  destruct self as [c st ft aid lbl btn packed cube q n calls].
  unfold_methods; cbn. repeat (case_match; simplify_eq/=); reflexivity.
Qed.

Lemma stop_stores_elapsed (self : StopWatch) (now t0 : Py.float) :
  _start_time self = Some t0 -> _after_id self <> None ->
  _final_time (fst (stop now self)) = Some (Py.float_sub now t0).
Proof.
  destruct self as [c st ft aid lbl btn packed cube q n calls]. cbn.
  intros -> Haid. destruct aid as [id |]; [| done].
  unfold_methods; cbn. destruct (format_seconds _); reflexivity.
Qed.

Lemma start_time_cleared_by_reset (self : StopWatch) (ev : event) :
  _start_time self <> None -> _start_time (step self ev) = None ->
  exists now, ev = Key "a" now /\ step self ev = fst (restart self).
Proof.
  intros Hst Hcleared.
  destruct self as [c st ft aid lbl btn packed cube q n calls].
  cbn in Hst. destruct st as [t0 |]; [clear Hst | done].
  destruct ev as [keysym now | id now | outcome | o]; unfold_methods; cbn in *.
  - exists now. destruct (String.eqb_spec keysym "space") as [-> | Hsp]; cbn in *.
    + repeat (case_match; simplify_eq/=).
    + destruct (String.eqb_spec keysym "a") as [-> | Ha]; cbn in *.
      * destruct (truth ft); cbn in *; [split; reflexivity | discriminate].
      * discriminate.
  - repeat (case_match; simplify_eq/=).
  - repeat (case_match; simplify_eq/=).
  - discriminate.
Qed.

(** C10: [stop()] records the elapsed time and leaves the start instant
    in place.  In every state the program reaches, whatever the clock
    reads, a recorded time comes with a start instant; [stop()] stores
    the difference of the clock reading and the start instant and does not
    change the start instant; and an event that clears the start instant
    is a press of the reset key that runs [restart()]. *)
Theorem final_time_keeps_start_time
    (fs : files) (w0 : StopWatch) (evs : list event) :
  __init__ fs = Py.Ok w0 ->
  let self := run w0 evs in
  (_final_time self <> None -> _start_time self <> None) /\
  (forall now, _start_time (fst (stop now self)) = _start_time self) /\
  (forall now t0, _start_time self = Some t0 ->
     _final_time (fst (stop now self)) = Some (Py.float_sub now t0)) /\
  (forall ev, _start_time self <> None -> _start_time (step self ev) = None ->
     exists now, ev = Key "a" now /\ step self ev = fst (restart self)).
Proof.
  intros Hinit self.
  assert (Hwf : well_formed self)
    by (apply run_well_formed, (init_well_formed fs), Hinit).
  destruct Hwf as [Hidle Hafter].
  split; [| split; [| split]].
  - intros Hft Hst. apply Hft, Hidle, Hst.
  - apply stop_keeps_start_time.
  - intros now t0 Hst. apply stop_stores_elapsed; [exact Hst |].
    apply Hafter. congruence.
  - apply start_time_cleared_by_reset.
Qed.

Lemma final_time_keeps_start_time_witness :
  let self := run (initial example_config)
                [Key "space" t_start; After 0 t_tick; Key "space" t_stop] in
  (_final_time self <> None -> _start_time self <> None) /\
  (forall now, _start_time (fst (stop now self)) = _start_time self) /\
  (forall now t0, _start_time self = Some t0 ->
     _final_time (fst (stop now self)) = Some (Py.float_sub now t0)) /\
  (forall ev, _start_time self <> None -> _start_time (step self ev) = None ->
     exists now, ev = Key "a" now /\ step self ev = fst (restart self)).
Proof.
  apply (final_time_keeps_start_time example_files). reflexivity.
Defined.

(** ** Sending *)

Lemma complete_lookups (c : gmap string string) :
  complete c = true ->
  exists url token org bucket,
    c !! "INFLUX_URL" = Some url /\ c !! "INFLUX_TOKEN" = Some token /\
    c !! "INFLUX_ORG" = Some org /\ c !! "INFLUX_BUCKET" = Some bucket.
Proof.
  unfold complete, required_fields. cbn [forallb]. intros H.
  repeat (apply andb_true_iff in H as [?%bool_decide_eq_true H]).
  destruct (c !! "INFLUX_URL") as [url |]; [| by destruct H0].
  destruct (c !! "INFLUX_TOKEN") as [token |]; [| by destruct H1].
  destruct (c !! "INFLUX_ORG") as [org |]; [| by destruct H2].
  destruct (c !! "INFLUX_BUCKET") as [bucket |]; [| by destruct H3].
  eauto 10.
Qed.

(** What a click on the button leaves as it was: everything but the two
    texts on display and the record of the writes made. *)
Lemma button_keeps_session (self : StopWatch) (outcome : Influx.write_outcome) :
  let self' := step self (Button outcome) in
  config self' = config self /\
  _start_time self' = _start_time self /\
  _final_time self' = _final_time self /\
  cube_choice self' = cube_choice self /\
  _after_id self' = _after_id self /\
  influx_btn_packed self' = influx_btn_packed self /\
  after_queue self' = after_queue self /\
  after_count self' = after_count self.
Proof.
  destruct self as [c st ft aid lbl btn packed cube q n calls].
  unfold_methods; cbn.
  repeat (case_match; simplify_eq/=); repeat split; reflexivity.
Qed.

Lemma buttons_keep_session (outcomes : list Influx.write_outcome) (self : StopWatch) :
  let self' := run self (map Button outcomes) in
  config self' = config self /\
  _start_time self' = _start_time self /\
  _final_time self' = _final_time self /\
  cube_choice self' = cube_choice self.
Proof.
  revert self. induction outcomes as [| o outcomes IH]; intros self; [done |].
  cbn [map run fold_left].
  destruct (button_keeps_session self o) as (Hc & Hs & Hf & Hk & _).
  destruct (IH (step self (Button o))) as (Hc' & Hs' & Hf' & Hk').
  unfold run in *. cbn zeta in *. repeat split; congruence.
Qed.

(** A click with a recorded time and a complete config: one write, then
    the button's caption or the label changes with the outcome, or
    neither does when the write's exception is not caught. *)
Lemma send_step (self : StopWatch) (d : Py.float) (outcome : Influx.write_outcome) :
  influx_btn_packed self = true -> _final_time self = Some d ->
  complete (config self) = true ->
  exists url token org bucket,
    config self !! "INFLUX_URL" = Some url /\
    config self !! "INFLUX_TOKEN" = Some token /\
    config self !! "INFLUX_ORG" = Some org /\
    config self !! "INFLUX_BUCKET" = Some bucket /\
    step self (Button outcome) =
      match outcome with
      | Influx.Written => set_influx_btn_text "Data sent to InfluxDb!"
      | Influx.InfluxDBError message => set_label_text message
      | Influx.Raises _ => fun self' => self'
      end
        (set_sent
           (sent self ++
            [ {| Influx.url := url; Influx.token := token; Influx.org := org;
                 Influx.bucket := bucket;
                 Influx.record :=
                   Influx.field "recorded_time" d
                     (Influx.tag "cube" (cube_choice self)
                        (Influx.new_point "solving_time")) |} ])
           self).
Proof.
  intros Hpacked Hft Hcomplete.
  destruct (complete_lookups _ Hcomplete) as (u & t & o & b & Hu & Ht & Ho & Hb).
  exists u, t, o, b. repeat (split; [assumption |]).
  destruct self as [c st ft aid lbl btn packed cube q n calls].
  cbn in Hpacked, Hft, Hu, Ht, Ho, Hb. subst packed ft.
  unfold_methods; cbn.
  rewrite Hu; cbn. rewrite Ht; cbn. rewrite Ho; cbn. rewrite Hb; cbn.
  destruct outcome; reflexivity.
Qed.

Lemma incomplete_lookup (c : gmap string string) :
  complete c = false ->
  exists key, key ∈ required_fields /\ c !! key = None.
Proof.
  unfold complete, required_fields. cbn [forallb]. intros H.
  repeat (apply andb_false_iff in H as [H | H]);
    try apply bool_decide_eq_false in H;
    try (apply eq_None_not_Some in H; eexists; split; [| exact H]; set_solver).
  discriminate.
Qed.

(** Without one of the four entries a send raises [KeyError] and changes
    nothing. *)
Lemma transmit_incomplete
    (self : StopWatch) (d : Py.float) (outcome : Influx.write_outcome) :
  complete (config self) = false ->
  exists key, key ∈ required_fields /\ config self !! key = None /\
    transmit_to_influxdb (Some d) outcome self = (self, Py.Raise (Py.KeyError key)).
Proof.
  intros H.
  destruct self as [c st ft aid lbl btn packed cube q n calls].
  change (complete c = false) in H.
  unfold_methods; cbn.
  destruct (c !! "INFLUX_URL") as [u |] eqn:Hu; cbn;
    [| exists "INFLUX_URL"; repeat split; [set_solver | done]].
  destruct (c !! "INFLUX_TOKEN") as [t |] eqn:Ht; cbn;
    [| exists "INFLUX_TOKEN"; repeat split; [set_solver | done]].
  destruct (c !! "INFLUX_ORG") as [o |] eqn:Ho; cbn;
    [| exists "INFLUX_ORG"; repeat split; [set_solver | done]].
  destruct (c !! "INFLUX_BUCKET") as [b |] eqn:Hb; cbn;
    [| exists "INFLUX_BUCKET"; repeat split; [set_solver | done]].
  exfalso. unfold complete, required_fields in H. cbn [forallb] in H.
  rewrite Hu, Ht, Ho, Hb in H. discriminate.
Qed.

(** An exception of the write that is no [InfluxDBError] leaves the
    callback. *)
Lemma send_raises (self : StopWatch) (d : Py.float) (e : Py.exception) :
  influx_btn_packed self = true -> _final_time self = Some d ->
  complete (config self) = true ->
  snd (callback (Button (Influx.Raises e)) self) = Py.Raise e.
Proof.
  intros Hpacked Hft Hcomplete.
  destruct (complete_lookups _ Hcomplete) as (u & t & o & b & Hu & Ht & Ho & Hb).
  destruct self as [c st ft aid lbl btn packed cube q n calls].
  cbn in Hpacked, Hft, Hu, Ht, Ho, Hb. subst packed ft.
  unfold_methods; cbn.
  rewrite Hu; cbn. rewrite Ht; cbn. rewrite Ho; cbn. rewrite Hb; cbn.
  reflexivity.
Qed.

(** C4 (code at fault): a send from the stopped state, with a config that
    has the four entries.  When the write raises [InfluxDBError] the
    session stays stopped with the same recorded time and the label shows
    the message; when the write returns, the session is sent and the button
    reads ["Data sent to InfluxDb!"].  But when the write fails with an
    exception that is no [InfluxDBError], as it does when the connection
    is refused, [except InfluxDBError] does not catch it: the exception
    leaves the callback, the session stays stopped with the same recorded
    time, and no error message is displayed, the label and the button's
    caption reading what they read before the click.  However many sends
    follow, with whatever outcomes, the start instant, the recorded time
    and the cube choice stay as they were. *)
Theorem send_outcomes
    (fs : files) (w0 : StopWatch) (evs : list event) :
  __init__ fs = Py.Ok w0 ->
  clock_moves_on w0 evs = true ->
  state_of (run w0 evs) = Stopped ->
  complete (config (run w0 evs)) = true ->
  let self := run w0 evs in
  (forall message,
     let self' := step self (Button (Influx.InfluxDBError message)) in
     state_of self' = Stopped /\
     _final_time self' = _final_time self /\
     label_text self' = message /\
     influx_btn_text self' = influx_btn_text self) /\
  (let self' := step self (Button Influx.Written) in
   state_of self' = Sent /\
   _final_time self' = _final_time self /\
   influx_btn_text self' = "Data sent to InfluxDb!" /\
   label_text self' = label_text self) /\
  (forall e,
     let self' := step self (Button (Influx.Raises e)) in
     snd (callback (Button (Influx.Raises e)) self) = Py.Raise e /\
     state_of self' = Stopped /\
     _final_time self' = _final_time self /\
     label_text self' = label_text self /\
     influx_btn_text self' = influx_btn_text self) /\
  (forall outcomes,
     let self' := run self (map Button outcomes) in
     _start_time self' = _start_time self /\
     _final_time self' = _final_time self /\
     cube_choice self' = cube_choice self).
Proof.
  intros Hinit Hclock Hstate Hcomplete self.
  assert (Hinv : invariant self)
    by (apply run_invariant; [apply (init_invariant fs) |]; assumption).
  fold self in Hstate, Hcomplete.
  pose proof (invariant_state self Hinv) as Hst.
  rewrite Hstate in Hst. destruct Hst as [_ Hft].
  pose proof (inv_packed self Hinv Hft) as Hpacked.
  destruct (_final_time self) as [d |] eqn:Hd; [clear Hft | done].
  assert (Hstopped : forall self', _start_time self' = _start_time self ->
            _final_time self' = Some d ->
            state_of self' =
              if String.eqb (influx_btn_text self') "Data sent to InfluxDb!"
              then Sent else Stopped).
  { intros self' Hs Hf. unfold state_of in Hstate |- *. rewrite Hs, Hf.
    rewrite Hd in Hstate. destruct (_start_time self); [| discriminate].
    destruct (negb (truth (Some d))); [discriminate | reflexivity]. }
  assert (Hbtn : String.eqb (influx_btn_text self) "Data sent to InfluxDb!" = false).
  { specialize (Hstopped self eq_refl Hd). rewrite Hstate in Hstopped.
    destruct (String.eqb _ _); [discriminate | reflexivity]. }
  split; [| split; [| split]].
  - intros message self'.
    destruct (send_step self d (Influx.InfluxDBError message) Hpacked Hd Hcomplete)
      as (u & t & o & b & _ & _ & _ & _ & Hstep).
    subst self'. rewrite Hstep. cbn.
    rewrite Hstopped by (cbn; auto). cbn. rewrite Hbtn. auto.
  - intros self'.
    destruct (send_step self d Influx.Written Hpacked Hd Hcomplete)
      as (u & t & o & b & _ & _ & _ & _ & Hstep).
    subst self'. rewrite Hstep. cbn.
    rewrite Hstopped by (cbn; auto). cbn. auto.
  - intros e self'.
    split; [apply (send_raises self d e Hpacked Hd Hcomplete) |].
    destruct (send_step self d (Influx.Raises e) Hpacked Hd Hcomplete)
      as (u & t & o & b & _ & _ & _ & _ & Hstep).
    subst self'. rewrite Hstep. cbn.
    rewrite Hstopped by (cbn; auto). cbn. rewrite Hbtn. auto.
  - intros outcomes self'.
    destruct (buttons_keep_session outcomes self) as (_ & Hs & Hf & Hk).
    subst self'. rewrite Hs, Hf, Hk, Hd. auto.
Qed.

Lemma send_outcomes_witness :
  let self := run (initial example_config)
                [Key "space" t_start; After 0 t_tick; Key "space" t_stop] in
  (forall message,
     let self' := step self (Button (Influx.InfluxDBError message)) in
     state_of self' = Stopped /\
     _final_time self' = _final_time self /\
     label_text self' = message /\
     influx_btn_text self' = influx_btn_text self) /\
  (let self' := step self (Button Influx.Written) in
   state_of self' = Sent /\
   _final_time self' = _final_time self /\
   influx_btn_text self' = "Data sent to InfluxDb!" /\
   label_text self' = label_text self) /\
  (forall e,
     let self' := step self (Button (Influx.Raises e)) in
     snd (callback (Button (Influx.Raises e)) self) = Py.Raise e /\
     state_of self' = Stopped /\
     _final_time self' = _final_time self /\
     label_text self' = label_text self /\
     influx_btn_text self' = influx_btn_text self) /\
  (forall outcomes,
     let self' := run self (map Button outcomes) in
     _start_time self' = _start_time self /\
     _final_time self' = _final_time self /\
     cube_choice self' = cube_choice self).
Proof.
  apply (send_outcomes example_files); vm_compute; reflexivity.
Defined.

(** The stopped session of the example, the connection refused: the click
    raises, and the window shows what it showed. *)
Example send_with_connection_refused :
  let self := run (initial example_config)
                [Key "space" t_start; After 0 t_tick; Key "space" t_stop] in
  let self' := step self (Button (Influx.Raises Py.NewConnectionError)) in
  state_of self = Stopped /\
  complete (config self) = true /\
  snd (callback (Button (Influx.Raises Py.NewConnectionError)) self) =
    Py.Raise Py.NewConnectionError /\
  label_text self = "Elapsed time: 00:00:03.670 seconds" /\
  label_text self' = "Elapsed time: 00:00:03.670 seconds" /\
  influx_btn_text self' = "Send result to InfluxDb" /\
  state_of self' = Stopped.
Proof. vm_compute. repeat split. Qed.

(** C8: a send with a recorded time [d] and a complete config makes one
    write, and the point written has the measurement name
    ["solving_time"], one tag, [cube], whose value is the dropdown's choice
    when the button is clicked, and one field, [recorded_time], whose
    value is [d]. *)
Theorem sent_point
    (self : StopWatch) (d : Py.float) (outcome : Influx.write_outcome) :
  influx_btn_packed self = true ->
  _final_time self = Some d ->
  complete (config self) = true ->
  exists call,
    sent (step self (Button outcome)) = sent self ++ [call] /\
    Influx.measurement (Influx.record call) = "solving_time" /\
    Influx.tags (Influx.record call) = {[ "cube" := cube_choice self ]} /\
    size (Influx.tags (Influx.record call)) = 1%nat /\
    Influx.fields (Influx.record call) = {[ "recorded_time" := d ]} /\
    size (Influx.fields (Influx.record call)) = 1%nat.
Proof.
  intros Hpacked Hft Hcomplete.
  destruct (send_step self d outcome Hpacked Hft Hcomplete)
    as (u & t & o & b & _ & _ & _ & _ & Hstep).
  eexists. rewrite Hstep. split; [destruct outcome; reflexivity |].
  cbn. rewrite !insert_empty, !map_size_singleton. auto.
Qed.

Lemma sent_point_witness :
  let self := run (initial example_config)
                [Key "space" t_start; Key "space" t_stop; Choose classic] in
  exists call,
    sent (step self (Button Influx.Written)) = sent self ++ [call] /\
    Influx.measurement (Influx.record call) = "solving_time" /\
    Influx.tags (Influx.record call) = {[ "cube" := "classic" ]} /\
    size (Influx.tags (Influx.record call)) = 1%nat /\
    Influx.fields (Influx.record call) =
      {[ "recorded_time" := Py.float_sub t_stop t_start ]} /\
    size (Influx.fields (Influx.record call)) = 1%nat.
Proof.
  apply (sent_point
           (run (initial example_config)
              [Key "space" t_start; Key "space" t_stop; Choose classic])
           (Py.float_sub t_stop t_start) Influx.Written);
    vm_compute; reflexivity.
Defined.

(** ** The session follows the specification's machine *)

Lemma step_config (self : StopWatch) (ev : event) :
  config (step self ev) = config self.
Proof.
  destruct self as [c st ft aid lbl btn packed cube q n calls].
  destruct ev; unfold_methods; cbn;
    repeat (case_match; simplify_eq/=); reflexivity.
Qed.

Lemma run_config (evs : list event) (self : StopWatch) :
  config (run self evs) = config self.
Proof.
  revert self. induction evs as [| ev evs IH]; intros self; [reflexivity |].
  cbn [run fold_left]. fold (run (step self ev) evs).
  rewrite IH. apply step_config.
Qed.

(** A refresh of the display touches the label and the callback queue. *)
Lemma after_keeps_session (self : StopWatch) (id : nat) (now : Py.float) :
  let self' := step self (After id now) in
  _start_time self' = _start_time self /\
  _final_time self' = _final_time self /\
  influx_btn_text self' = influx_btn_text self.
Proof.
  destruct self as [c st ft aid lbl btn packed cube q n calls].
  unfold_methods; cbn.
  repeat (case_match; simplify_eq/=); repeat split; reflexivity.
Qed.

Lemma state_of_ext (self self' : StopWatch) :
  _start_time self' = _start_time self ->
  _final_time self' = _final_time self ->
  influx_btn_text self' = influx_btn_text self ->
  state_of self' = state_of self.
Proof. unfold state_of. intros -> -> ->. reflexivity. Qed.

Lemma step_state (self : StopWatch) (ev : event) :
  invariant self -> clock_ok self ev = true ->
  state_of (step self ev) = spec_step (complete (config self)) (state_of self) ev.
Proof.
  intros Hinv Hok. destruct ev as [keysym now | id now | outcome | o].
  - apply (key_step_table self keysym now Hinv Hok).
  - destruct (after_keeps_session self id now) as (Hs & Hf & Hb).
    apply state_of_ext; assumption.
  - pose proof (invariant_state self Hinv) as Hstate.
    destruct (_final_time self) as [d |] eqn:Hft.
    + pose proof (inv_packed self Hinv ltac:(congruence)) as Hpacked.
      assert (Hst : state_of self = Stopped \/ state_of self = Sent).
      { destruct (state_of self); destruct Hstate; auto; congruence. }
      assert (Hstart : _start_time self <> None)
        by (destruct Hst as [Hst | Hst]; rewrite Hst in Hstate; tauto).
      destruct (complete (config self)) eqn:Hcomplete.
      * destruct (send_step self d outcome Hpacked Hft Hcomplete)
          as (u & t & b & k & _ & _ & _ & _ & ->).
        destruct outcome as [| message | e].
        -- assert (Hsent : forall self', _start_time self' = _start_time self ->
                     _final_time self' = Some d ->
                     influx_btn_text self' = "Data sent to InfluxDb!" ->
                     state_of self' = Sent).
           { intros self' Hs Hf Hb. unfold state_of. rewrite Hs, Hf, Hb.
             destruct (_start_time self); [| done].
             cbn. rewrite (inv_true self Hinv d Hft). reflexivity. }
           rewrite Hsent by (cbn; auto).
           destruct Hst as [-> | ->]; reflexivity.
        -- cbn [spec_step]. apply state_of_ext; reflexivity.
        -- cbn [spec_step]. apply state_of_ext; reflexivity.
      * destruct (transmit_incomplete self d outcome Hcomplete)
          as (key & _ & _ & Hraise).
        assert (Hstep : step self (Button outcome) = self).
        { unfold step, callback. unfold mbind, M_bind, bind, gets.
          rewrite Hpacked, Hft, Hraise. reflexivity. }
        rewrite Hstep. cbn. destruct outcome; [| reflexivity | reflexivity].
        destruct Hst as [-> | ->]; reflexivity.
    + destruct (inv_button self Hinv Hft) as [_ Hpacked].
      assert (Hstep : step self (Button outcome) = self).
      { unfold step, callback. unfold mbind, M_bind, bind, gets, ret.
        rewrite Hpacked. reflexivity. }
      rewrite Hstep. cbn.
      destruct (state_of self); destruct Hstate; destruct outcome;
        try reflexivity; congruence.
  - apply state_of_ext; destruct self; reflexivity.
Qed.

Lemma run_state (evs : list event) (self : StopWatch) :
  invariant self -> clock_moves_on self evs = true ->
  state_of (run self evs) =
  fold_left (spec_step (complete (config self))) evs (state_of self).
Proof.
  revert self. induction evs as [| ev evs IH]; intros self Hinv Hclock; [reflexivity |].
  cbn [clock_moves_on] in Hclock. apply andb_true_iff in Hclock as [Hev Hevs].
  cbn [run fold_left]. fold (run (step self ev) evs).
  rewrite IH by (try apply step_invariant; assumption).
  rewrite step_config, step_state by assumption. reflexivity.
Qed.

(** C7: in every state the program reaches by key presses, refreshes of
    the display, clicks on the button with any outcome of the write,
    and choices in the dropdown, the session is in the state the
    specification's machine is in after the same events, and the recorded
    time is set exactly when that state is [Stopped] or [Sent]. *)
Theorem final_time_set_iff_stopped_or_sent
    (fs : files) (w0 : StopWatch) (evs : list event) :
  __init__ fs = Py.Ok w0 ->
  clock_moves_on w0 evs = true ->
  let self := run w0 evs in
  let s := spec_run (complete (config w0)) evs in
  state_of self = s /\
  (_final_time self <> None <-> s = Stopped \/ s = Sent).
Proof.
  intros Hinit Hclock self s.
  assert (Hinv0 : invariant w0) by (apply (init_invariant fs), Hinit).
  assert (Hinv : invariant self) by (apply run_invariant; assumption).
  assert (Hs : state_of self = s).
  { subst self s. rewrite run_state by assumption.
    unfold spec_run. f_equal.
    unfold __init__ in Hinit. destruct (get_config fs); [| discriminate].
    destruct (rubiks_cube_png fs); [| discriminate].
    injection Hinit as <-. reflexivity. }
  split; [exact Hs |]. rewrite <- Hs.
  pose proof (invariant_state self Hinv) as Hst.
  destruct (state_of self); intuition congruence.
Qed.

Lemma final_time_set_iff_stopped_or_sent_witness :
  let evs := [Key "space" t_start; After 0 t_tick; Key "space" t_stop;
              Button Influx.Written] in
  let self := run (initial example_config) evs in
  let s := spec_run (complete (config (initial example_config))) evs in
  state_of self = s /\
  (_final_time self <> None <-> s = Stopped \/ s = Sent).
Proof.
  apply (final_time_set_iff_stopped_or_sent example_files);
    vm_compute; reflexivity.
Defined.

(** ** Startup *)

(** C3 (as stated, refuted): with a config file that holds an empty
    object, [__init__] reaches [mainloop()]: the window is shown, and the
    stopwatch starts and stops. *)
Lemma empty_config_opens_window :
  complete ∅ = false /\
  __init__ empty_config_files = Py.Ok (initial ∅) /\
  state_of (run (initial ∅) [Key "space" t_start; Key "space" t_stop]) = Stopped.
Proof. vm_compute. repeat split. Qed.

(** C3 (amended): a missing config file is fatal at startup:
    [get_config()] raises [FileNotFoundError] out of [__init__] before
    [mainloop()] is entered, so no window is shown and no callback runs.
    A config file that is there is not checked for its entries: with the
    image in place the window opens whatever the file holds, and an entry
    that is missing shows only when a send looks it up, as a [KeyError]
    that leaves the object as it was. *)
Theorem startup_config_errors (fs : files) :
  rubiks_cube_png fs = true ->
  match config_json fs with
  | None => __init__ fs = Py.Raise Py.FileNotFoundError
  | Some c =>
      __init__ fs = Py.Ok (initial c) /\
      (complete c = false ->
       forall evs d outcome,
         let self := run (initial c) evs in
         exists key, key ∈ required_fields /\ c !! key = None /\
           transmit_to_influxdb (Some d) outcome self =
             (self, Py.Raise (Py.KeyError key)))
  end.
Proof.
  intros Hpng. unfold __init__, get_config.
  destruct (config_json fs) as [c |]; [| reflexivity].
  rewrite Hpng. split; [reflexivity |].
  intros Hc evs d outcome. set (self := run (initial c) evs).
  assert (Hcfg : config self = c) by apply run_config.
  rewrite <- Hcfg in Hc |- *. apply transmit_incomplete, Hc.
Qed.

Lemma startup_config_errors_witness :
  __init__ empty_config_files = Py.Ok (initial ∅) /\
  (complete (∅ : gmap string string) = false ->
   forall evs d outcome,
     let self := run (initial ∅) evs in
     exists key, key ∈ required_fields /\ (∅ : gmap string string) !! key = None /\
       transmit_to_influxdb (Some d) outcome self =
         (self, Py.Raise (Py.KeyError key))).
Proof.
  apply (startup_config_errors empty_config_files). reflexivity.
Defined.

(** * More of the program *)

(** ** The refresh loop *)

Lemma init_refresh_invariant (fs : files) (w : StopWatch) :
  __init__ fs = Py.Ok w -> refresh_invariant w.
Proof.
  unfold __init__, get_config. intros H.
  destruct (config_json fs); [| discriminate].
  destruct (rubiks_cube_png fs); [| discriminate].
  injection H as <-. split; cbn; intros; try done; auto.
  by apply elem_of_nil in H.
Qed.

Lemma filter_other_singleton (id : nat) :
  filter (fun j : nat => j ≠ id) [id] = [].
Proof. cbn. case_decide; [done | reflexivity]. Qed.

Ltac queue_cases :=
  repeat case_decide; try done; eauto;
  try match goal with
      | H : _ ∈ [] |- _ => by apply elem_of_nil in H
      | H : ?i ∈ [?j], H' : ?j ≠ ?i |- _ =>
          apply list_elem_of_singleton in H; congruence
      end.

Lemma step_refresh_invariant (self : StopWatch) (ev : event) :
  refresh_invariant self -> refresh_invariant (step self ev).
Proof.
  intros [Hidle Hqueue Hbefore Hrec Hfresh].
  destruct self as [c st ft aid lbl btn packed cube q n calls].
  cbn in Hidle, Hqueue, Hbefore, Hrec, Hfresh.
  assert (Hnew : forall id, id ∈ [n] -> (id < S n)%nat)
    by (intros id ->%list_elem_of_singleton; lia).
  assert (Hq : q = [] \/ st <> None /\ ft = None /\ exists id, q = [id] /\ aid = Some id).
  { destruct Hqueue as [-> | (id' & -> & ->)]; [by left | right].
    destruct st; [| by specialize (Hbefore eq_refl)].
    destruct ft; [by specialize (Hrec ltac:(done)) | eauto]. }
  clear Hqueue Hbefore Hrec.
  destruct ev as [keysym now | id now | outcome | o]; unfold_methods; cbn.
  - destruct Hq as [-> | (Hst & -> & id' & -> & ->)];
      [destruct st; [| rewrite (Hidle eq_refl)] | destruct st; [| done]];
      cbn; rewrite ?andb_false_r, ?andb_true_r; cbn;
      repeat (case_match; simplify_eq/=); repeat case_decide; try done;
      split; cbn; intros; simplify_eq/=; eauto; try done; queue_cases.
  - destruct Hq as [-> | (Hst & -> & id' & -> & ->)];
      [| destruct st; [| done]];
      cbn; repeat (case_match; simplify_eq/=); repeat case_decide; try done;
      split; cbn; intros; simplify_eq/=; eauto; try done; queue_cases.
  - destruct Hq as [-> | (Hst & -> & id' & -> & ->)];
      repeat (case_match; simplify_eq/=); split; cbn; intros; simplify_eq/=;
      eauto; try done; queue_cases.
  - destruct Hq as [-> | (Hst & -> & id' & -> & ->)]; split; cbn; eauto; done.
Qed.

Lemma run_refresh_invariant (evs : list event) (self : StopWatch) :
  refresh_invariant self -> refresh_invariant (run self evs).
Proof.
  revert self. induction evs as [| ev evs IH]; intros self Hinv; [exact Hinv |].
  apply (IH (step self ev)), step_refresh_invariant, Hinv.
Qed.

(** X1: however the events come and whatever the clock reads, at most one
    refresh of the display is pending, and it is the one whose identifier
    [_after_id] holds, so the one [stop()] cancels; no refresh is pending
    before the start, nor once a time is recorded. *)
Theorem one_refresh_pending
    (fs : files) (w0 : StopWatch) (evs : list event) :
  __init__ fs = Py.Ok w0 ->
  let self := run w0 evs in
  (after_queue self = [] \/
   exists id, after_queue self = [id] /\ _after_id self = Some id) /\
  (_start_time self = None -> after_queue self = []) /\
  (_final_time self <> None -> after_queue self = []).
Proof.
  intros Hinit self.
  assert (Hinv : refresh_invariant self)
    by (apply run_refresh_invariant, (init_refresh_invariant fs), Hinit).
  destruct Hinv as [_ Hqueue Hbefore Hrec _]. auto.
Qed.

Lemma one_refresh_pending_witness :
  let self := run (initial example_config)
                [Key "space" t_start; After 0 t_tick] in
  (after_queue self = [] \/
   exists id, after_queue self = [id] /\ _after_id self = Some id) /\
  (_start_time self = None -> after_queue self = []) /\
  (_final_time self <> None -> after_queue self = []).
Proof.
  apply (one_refresh_pending example_files). reflexivity.
Defined.


(** A refresh that is due: the session is running and the callback is the
    one pending. *)
Lemma due_refresh (self : StopWatch) (id : nat) :
  refresh_invariant self -> id ∈ after_queue self ->
  after_queue self = [id] /\ _after_id self = Some id /\
  _start_time self <> None /\ _final_time self = None.
Proof.
  intros [Hidle Hqueue Hbefore Hrec _] Hin.
  destruct Hqueue as [Hq | (id' & Hq & Haid)];
    [rewrite Hq in Hin; by apply elem_of_nil in Hin |].
  rewrite Hq in Hin. apply list_elem_of_singleton in Hin as ->.
  repeat split; try assumption.
  - intros Hst. rewrite (Hbefore Hst) in Hq. discriminate.
  - destruct (_final_time self) eqn:Hft; [| reflexivity].
    rewrite Hrec in Hq by done. discriminate.
Qed.

(** X2: when the pending refresh fires in a session that was started at
    [t0], and [format_seconds] returns a string for the time elapsed, the
    label shows that string and one refresh is pending again, under a new
    identifier that [_after_id] holds; the start instant and the recorded
    time are untouched. *)
Theorem refresh_shows_elapsed_time
    (fs : files) (w0 : StopWatch) (evs : list event)
    (id : nat) (now t0 : Py.float) (text : string) :
  __init__ fs = Py.Ok w0 ->
  _start_time (run w0 evs) = Some t0 ->
  id ∈ after_queue (run w0 evs) ->
  format_seconds (Py.float_sub now t0) = Py.Ok text ->
  let self := run w0 evs in
  let self' := step self (After id now) in
  label_text self' = text /\
  after_queue self' = [after_count self] /\
  _after_id self' = Some (after_count self) /\
  after_count self <> id /\
  _start_time self' = Some t0 /\ _final_time self' = None.
Proof.
  intros Hinit Hst Hin Hfmt self self'.
  assert (Hinv : refresh_invariant self)
    by (apply run_refresh_invariant, (init_refresh_invariant fs), Hinit).
  pose proof (ri_fresh self Hinv id Hin) as Hfresh.
  destruct (due_refresh self id Hinv Hin) as (Hq & Haid & _ & Hft).
  subst self'. fold self in Hst. clearbody self.
  destruct self as [c st ft aid lbl btn packed cube q n calls].
  cbn in Hst, Hq, Haid, Hft, Hfresh. subst st q aid ft.
  unfold_methods; cbn. rewrite bool_decide_eq_true_2 by apply list_elem_of_here; cbn.
  rewrite Hfmt; cbn. case_decide; [done |]. cbn.
  repeat split; try reflexivity. lia.
Qed.

Lemma refresh_shows_elapsed_time_witness :
  let self := run (initial example_config) [Key "space" t_start] in
  let self' := step self (After 0 t_tick) in
  label_text self' = "00:00:00.019" /\
  after_queue self' = [after_count self] /\
  _after_id self' = Some (after_count self) /\
  after_count self <> 0%nat /\
  _start_time self' = Some t_start /\ _final_time self' = None.
Proof.
  apply (refresh_shows_elapsed_time example_files (initial example_config)
           [Key "space" t_start] 0 t_tick t_start "00:00:00.019");
    vm_compute; (reflexivity || apply list_elem_of_here).
Defined.

(** X3: when the pending refresh fires and [format_seconds] raises for
    the time elapsed, the label keeps its text and no refresh is pending
    any more: no later callback changes anything, so the display stays as
    it is.  The stopwatch goes on all the same: the next press of the
    start/stop key records the time elapsed since the start. *)
Theorem refresh_ends_on_format_error
    (fs : files) (w0 : StopWatch) (evs : list event)
    (id : nat) (now t0 : Py.float) (e : Py.exception) :
  __init__ fs = Py.Ok w0 ->
  _start_time (run w0 evs) = Some t0 ->
  id ∈ after_queue (run w0 evs) ->
  format_seconds (Py.float_sub now t0) = Py.Raise e ->
  let self := run w0 evs in
  let self' := step self (After id now) in
  snd (callback (After id now) self) = Py.Raise e /\
  label_text self' = label_text self /\
  after_queue self' = [] /\
  (forall id' now', step self' (After id' now') = self') /\
  (forall now', _final_time (step self' (Key "space" now')) =
                Some (Py.float_sub now' t0)).
Proof.
  intros Hinit Hst Hin Hfmt self self'.
  assert (Hinv : refresh_invariant self)
    by (apply run_refresh_invariant, (init_refresh_invariant fs), Hinit).
  destruct (due_refresh self id Hinv Hin) as (Hq & Haid & _ & Hft).
  subst self'. fold self in Hst. clearbody self.
  destruct self as [c st ft aid lbl btn packed cube q n calls].
  cbn in Hst, Hq, Haid, Hft. subst st q aid ft.
  unfold_methods; cbn. rewrite bool_decide_eq_true_2 by apply list_elem_of_here; cbn.
  rewrite Hfmt; cbn. case_decide; [done |]. cbn.
  repeat split; try reflexivity.
  intros now'. destruct (format_seconds (Py.float_sub now' t0)); reflexivity.
Qed.

Lemma refresh_ends_on_format_error_witness :
  let self := run (initial example_config) [Key "space" (Py.literal 0 0)] in
  let self' := step self (After 0 (Py.literal 1 7)) in
  snd (callback (After 0 (Py.literal 1 7)) self) = Py.Raise Py.IndexError /\
  label_text self' = label_text self /\
  after_queue self' = [] /\
  (forall id' now', step self' (After id' now') = self') /\
  (forall now', _final_time (step self' (Key "space" now')) =
                Some (Py.float_sub now' (Py.literal 0 0))).
Proof.
  apply (refresh_ends_on_format_error example_files (initial example_config)
           [Key "space" (Py.literal 0 0)] 0 (Py.literal 1 7) (Py.literal 0 0)
           Py.IndexError);
    vm_compute; (reflexivity || apply list_elem_of_here).
Defined.

(** ** What a stop leaves on screen *)

(** X4: a press of the start/stop key in a started session with no
    recorded time that counts records the time elapsed, shows the send
    button and cancels the pending refresh.  When [format_seconds]
    returns a string for the recorded time, the label reads
    ["Elapsed time: ... seconds"] around it; when it raises, the time is
    recorded and the button shown all the same, and the label keeps the
    text it had. *)
Theorem stop_shows_recorded_time
    (fs : files) (w0 : StopWatch) (evs : list event) (now t0 : Py.float) :
  __init__ fs = Py.Ok w0 ->
  _start_time (run w0 evs) = Some t0 ->
  truth (_final_time (run w0 evs)) = false ->
  let self := run w0 evs in
  let self' := step self (Key "space" now) in
  let elapsed := Py.float_sub now t0 in
  _final_time self' = Some elapsed /\
  influx_btn_packed self' = true /\
  after_queue self' = [] /\
  label_text self' =
    match format_seconds elapsed with
    | Py.Ok str_time => "Elapsed time: " +:+ str_time +:+ " seconds"
    | Py.Raise _ => label_text self
    end /\
  snd (callback (Key "space" now) self) =
    match format_seconds elapsed with
    | Py.Ok _ => Py.Ok tt
    | Py.Raise e => Py.Raise e
    end.
Proof.
  intros Hinit Hst Hft self self' elapsed.
  assert (Hinv : refresh_invariant self)
    by (apply run_refresh_invariant, (init_refresh_invariant fs), Hinit).
  assert (Hwf : well_formed self)
    by (apply run_well_formed, (init_well_formed fs), Hinit).
  pose proof (wf_after self Hwf) as Hafter.
  pose proof (ri_queue self Hinv) as Hqueue.
  subst self' elapsed. fold self in Hst, Hft. clearbody self.
  destruct self as [c st ft aid lbl btn packed cube q n calls].
  cbn in Hst, Hft, Hafter, Hqueue. subst st.
  destruct aid as [id |]; [| exfalso; by apply Hafter].
  unfold_methods; cbn. rewrite Hft; cbn.
  assert (Hq : filter (fun j : nat => j ≠ id) q = []).
  { destruct Hqueue as [-> | (id' & -> & [= ->])]; [reflexivity |].
    apply filter_other_singleton. }
  rewrite Hq. destruct (format_seconds (Py.float_sub now t0)); cbn; auto.
Qed.

Lemma stop_shows_recorded_time_witness :
  let self := run (initial example_config)
                [Key "space" t_start; After 0 t_tick] in
  let self' := step self (Key "space" t_stop) in
  let elapsed := Py.float_sub t_stop t_start in
  _final_time self' = Some elapsed /\
  influx_btn_packed self' = true /\
  after_queue self' = [] /\
  label_text self' =
    match format_seconds elapsed with
    | Py.Ok str_time => "Elapsed time: " +:+ str_time +:+ " seconds"
    | Py.Raise _ => label_text self
    end /\
  snd (callback (Key "space" t_stop) self) =
    match format_seconds elapsed with
    | Py.Ok _ => Py.Ok tt
    | Py.Raise e => Py.Raise e
    end.
Proof.
  apply (stop_shows_recorded_time example_files (initial example_config)
           [Key "space" t_start; After 0 t_tick] t_stop t_start);
    vm_compute; reflexivity.
Defined.

(** ** The send button *)

Lemma step_button_shown (self : StopWatch) (ev : event) :
  (influx_btn_packed self = true <-> _final_time self <> None) ->
  (influx_btn_packed (step self ev) = true <-> _final_time (step self ev) <> None).
Proof.
  destruct self as [c st ft aid lbl btn packed cube q n calls]. cbn. intros H.
  destruct ev as [keysym now | id now | outcome | o]; unfold_methods; cbn;
    repeat (case_match; simplify_eq/=); try exact H; try (split; done).
Qed.

Lemma init_button_shown (fs : files) (w : StopWatch) :
  __init__ fs = Py.Ok w ->
  (influx_btn_packed w = true <-> _final_time w <> None).
Proof.
  unfold __init__. intros Hinit. destruct (get_config fs); [| discriminate].
  destruct (rubiks_cube_png fs); [| discriminate].
  injection Hinit as <-. cbn. split; done.
Qed.

Lemma run_button_shown (evs : list event) (self : StopWatch) :
  (influx_btn_packed self = true <-> _final_time self <> None) ->
  (influx_btn_packed (run self evs) = true <-> _final_time (run self evs) <> None).
Proof.
  revert self. induction evs as [| ev evs IH]; intros self H0; [exact H0 |].
  apply (IH (step self ev)), step_button_shown, H0.
Qed.

(** X5: however the events come and whatever the clock reads, the send
    button is on screen exactly when a time is recorded: [stop()] puts it
    there with the time, [restart()] takes both away, and nothing else
    touches either. *)
Theorem button_shown_iff_recorded
    (fs : files) (w0 : StopWatch) (evs : list event) :
  __init__ fs = Py.Ok w0 ->
  let self := run w0 evs in
  influx_btn_packed self = true <-> _final_time self <> None.
Proof.
  intros Hinit. cbn zeta. apply run_button_shown, (init_button_shown fs), Hinit.
Qed.

Lemma button_shown_iff_recorded_witness :
  let self := run (initial example_config)
                [Key "space" t_start; Key "space" t_stop] in
  influx_btn_packed self = true <-> _final_time self <> None.
Proof.
  apply (button_shown_iff_recorded example_files). reflexivity.
Defined.

(** ** What [format_seconds] returns and what it raises *)

Lemma split_no_point (s : string) :
  has_point s = false -> Py.split "." s = [s].
Proof.
  induction s as [| c s IH]; [reflexivity |]. cbn [has_point Py.split].
  intros H. apply orb_false_iff in H as [Hc Hs].
  rewrite Hc, (IH Hs). reflexivity.
Qed.

Lemma split_point (s : string) :
  has_point s = true -> exists a b rest, Py.split "." s = a :: b :: rest.
Proof.
  induction s as [| c s IH]; [discriminate |]. cbn [has_point Py.split].
  destruct (Ascii.eqb c ".") eqn:Hc; cbn [orb].
  - intros _. destruct (Py.split "." s) as [| b rest] eqn:Hs; [| eauto].
    destruct s; cbn in Hs; [discriminate |].
    destruct (Ascii.eqb _ _); [discriminate |].
    destruct (Py.split "." s); discriminate.
  - intros H. destruct (IH H) as (a & b & rest & ->). eauto.
Qed.

Lemma split_pieces (s : string) :
  Forall (fun piece => has_point piece = false) (Py.split "." s).
Proof.
  induction s as [| c s IH]; [repeat constructor |]. cbn [Py.split].
  destruct (Ascii.eqb c ".") eqn:Hc; [constructor; [reflexivity | exact IH] |].
  destruct (Py.split "." s) as [| piece pieces]; [repeat constructor; cbn; by rewrite Hc |].
  inversion IH as [| ? ? Hpiece Hpieces]; subst.
  constructor; [cbn; by rewrite Hc, Hpiece | exact Hpieces].
Qed.

Lemma take_no_point (n : nat) (s : string) :
  has_point s = false -> has_point (Py.take n s) = false.
Proof.
  revert s. induction n as [| n IH]; intros [| c s]; try reflexivity.
  cbn [has_point Py.take]. intros H. apply orb_false_iff in H as [Hc Hs].
  rewrite Hc, (IH s Hs). reflexivity.
Qed.

Lemma take_length (n : nat) (s : string) : (String.length (Py.take n s) <= n)%nat.
Proof.
  revert s. induction n as [| n IH]; intros [| c s]; cbn; try lia.
  specialize (IH s). lia.
Qed.

Lemma getitem_raises {A : Type} (l : list A) (i : nat) (e : Py.exception) :
  Py.getitem l i = Py.Raise e -> e = Py.IndexError.
Proof. unfold Py.getitem. destruct (l !! i); congruence. Qed.

Lemma gmtime_raises (x : Py.float) (e : Py.exception) :
  Py.is_finite x = true -> Py.gmtime x = Py.Raise e ->
  (e = Py.OverflowError \/ e = Py.OSError) /\
  (Py.floor x < 0 \/ 10 ^ 16 <= Py.floor x).
Proof.
  intros Hfin H. split.
  - unfold Py.gmtime in H.
    destruct x; try discriminate;
      destruct (_ || _); try (injection H as <-; auto; fail);
      destruct (Py.fits_int _); try discriminate; injection H as <-; auto.
  - destruct (Z.lt_ge_cases (Py.floor x) 0) as [Hneg | Hpos]; [auto |].
    destruct (Z.lt_ge_cases (Py.floor x) (10 ^ 16)) as [Hlt | Hge]; [| auto].
    destruct (gmtime_in_range x Hfin (conj Hpos Hlt)) as (year & _ & Hgm).
    congruence.
Qed.

Lemma strftime_raises (x : Py.float) (t : Py.struct_time) (e : Py.exception) :
  Py.is_finite x = true -> Py.gmtime x = Py.Ok t ->
  Py.strftime "%H:%M:%S" t = Py.Raise e ->
  e = Py.OverflowError /\ (Py.floor x < 0 \/ 10 ^ 16 <= Py.floor x).
Proof.
  intros Hfin Hgm H. unfold Py.strftime in H.
  destruct (Py.fits_int (Py.tm_year t)) eqn:Hfits; [discriminate |].
  injection H as <-. split; [reflexivity |].
  destruct (Z.lt_ge_cases (Py.floor x) 0) as [Hneg | Hpos]; [auto |].
  destruct (Z.lt_ge_cases (Py.floor x) (10 ^ 16)) as [Hlt | Hge]; [| auto].
  destruct (gmtime_in_range x Hfin (conj Hpos Hlt)) as (year & Hyear & Hgm').
  rewrite Hgm in Hgm'. injection Hgm' as ->. cbn in Hfits. congruence.
Qed.

(** The floats that are not finite print without a point. *)
Lemma not_finite_no_point (x : Py.float) :
  Py.is_finite x = false -> has_point (Py.str x) = false.
Proof. destruct x as [s | s | | s m e]; try discriminate; [by destruct s | done]. Qed.

Lemma format_seconds_no_point (x : Py.float) :
  has_point (Py.str x) = false -> format_seconds x = Py.Raise Py.IndexError.
Proof.
  intros H. unfold format_seconds. rewrite (split_no_point _ H). reflexivity.
Qed.

Lemma format_seconds_raises_cases (x : Py.float) (e : Py.exception) :
  format_seconds x = Py.Raise e ->
  e = Py.IndexError /\ has_point (Py.str x) = false \/
  has_point (Py.str x) = true /\
  (e = Py.OverflowError \/ e = Py.OSError) /\
  (Py.floor x < 0 \/ 10 ^ 16 <= Py.floor x).
Proof.
  intros H.
  destruct (has_point (Py.str x)) eqn:Hpoint;
    [right | left; rewrite (format_seconds_no_point x Hpoint) in H; split; congruence].
  assert (Hfin : Py.is_finite x = true).
  { destruct (Py.is_finite x) eqn:Hfin; [reflexivity |].
    rewrite (not_finite_no_point x Hfin) in Hpoint. discriminate. }
  split; [reflexivity |].
  unfold format_seconds in H.
  destruct (split_point _ Hpoint) as (a & b & rest & Hsplit).
  rewrite Hsplit in H. cbn [Py.getitem lookup list_lookup] in H.
  destruct (Py.gmtime x) as [t | e'] eqn:Hgm.
  - destruct (Py.strftime "%H:%M:%S" t) as [str_time | e''] eqn:Hstr; [discriminate |].
    injection H as <-.
    destruct (strftime_raises x t e'' Hfin Hgm Hstr) as [-> Hrange]. auto.
  - injection H as <-. apply (gmtime_raises x e' Hfin Hgm).
Qed.

(** X6: whenever [format_seconds] returns a string, the string is the
    hour, the minute and the second of the time of day of the whole
    seconds, two digits each with colons between (hours below 24, minutes
    and seconds below 60), then a point, then the first three characters,
    or as many as there are, of the second piece of [str(seconds)] split
    at its points; none of them is a point. *)
Theorem format_seconds_clock_fields (x : Py.float) (s : string) :
  format_seconds x = Py.Ok s ->
  exists h m sec fraction,
    s = Py.two_digits h +:+ ":" +:+ Py.two_digits m +:+ ":" +:+
        Py.two_digits sec +:+ "." +:+ Py.take 3 fraction /\
    0 <= h < 24 /\ 0 <= m < 60 /\ 0 <= sec < 60 /\
    Py.floor x mod 86400 = h * 3600 + m * 60 + sec /\
    Py.split "." (Py.str x) !! 1%nat = Some fraction /\
    (String.length (Py.take 3 fraction) <= 3)%nat /\
    has_point (Py.take 3 fraction) = false.
Proof.
  intros H. unfold format_seconds, Py.getitem in H.
  destruct (Py.split "." (Py.str x) !! 1%nat) as [fraction |] eqn:Hfr; [| discriminate].
  destruct (Py.gmtime x) as [t | e] eqn:Hgm; [| discriminate].
  destruct (gmtime_fields x t Hgm) as (Hh & Hm & Hs).
  unfold Py.strftime in H. destruct (Py.fits_int _); [| discriminate].
  injection H as <-. cbn [Py.strftime_fields]. rewrite Hh, Hm, Hs.
  exists (Py.floor x mod 86400 / 3600), (Py.floor x mod 3600 / 60),
    (Py.floor x mod 60), fraction.
  split; [reflexivity |].
  repeat split; try (Z.div_mod_to_equations; lia).
  - apply take_length.
  - apply take_no_point.
    pose proof (split_pieces (Py.str x)) as Hpieces.
    rewrite Forall_lookup in Hpieces. apply (Hpieces 1%nat fraction Hfr).
Qed.

Lemma format_seconds_clock_fields_witness :
  exists h m sec fraction,
    "01:01:01.456" =
      Py.two_digits h +:+ ":" +:+ Py.two_digits m +:+ ":" +:+
      Py.two_digits sec +:+ "." +:+ Py.take 3 fraction /\
    0 <= h < 24 /\ 0 <= m < 60 /\ 0 <= sec < 60 /\
    Py.floor (Py.literal 36614567 4) mod 86400 = h * 3600 + m * 60 + sec /\
    Py.split "." (Py.str (Py.literal 36614567 4)) !! 1%nat = Some fraction /\
    (String.length (Py.take 3 fraction) <= 3)%nat /\
    has_point (Py.take 3 fraction) = false.
Proof.
  apply (format_seconds_clock_fields (Py.literal 36614567 4)).
  vm_compute. reflexivity.
Defined.

(** X7: what [format_seconds] raises.  It raises [IndexError] exactly
    when [str(seconds)] has no point (exponent notation with one digit,
    [inf], [nan]); any other exception is the [OverflowError] or [OSError]
    of [gmtime] and [strftime], and comes only with whole seconds below
    zero or from [10^16] on.  It raises no [ValueError]: [nan] has failed
    before [gmtime] sees it. *)
Theorem format_seconds_raises (x : Py.float) :
  (format_seconds x = Py.Raise Py.IndexError <-> has_point (Py.str x) = false) /\
  (forall e, format_seconds x = Py.Raise e ->
     e = Py.IndexError \/
     (e = Py.OverflowError \/ e = Py.OSError) /\
     (Py.floor x < 0 \/ 10 ^ 16 <= Py.floor x)).
Proof.
  split; [split |].
  - intros H. destruct (format_seconds_raises_cases x _ H) as [[_ Hp] | (_ & [He | He] & _)];
      [exact Hp | discriminate | discriminate].
  - apply format_seconds_no_point.
  - intros e H. destruct (format_seconds_raises_cases x e H) as [[He _] | (_ & He & Hr)]; auto.
Qed.

(** X8: for a finite float whose whole seconds lie in [0, 10^16),
    [format_seconds] returns a string exactly when [str(seconds)] has a
    point. *)
Theorem format_seconds_returns_iff_point (x : Py.float) :
  Py.is_finite x = true -> 0 <= Py.floor x < 10 ^ 16 ->
  (exists s, format_seconds x = Py.Ok s) <-> has_point (Py.str x) = true.
Proof.
  intros Hfin Hrange. split.
  - intros [s Hs]. destruct (has_point (Py.str x)) eqn:Hpoint; [reflexivity |].
    rewrite (format_seconds_no_point x Hpoint) in Hs. discriminate.
  - intros Hpoint. destruct (format_seconds x) as [s | e] eqn:Hfs; [eauto |].
    destruct (format_seconds_raises_cases x e Hfs) as [[_ Hp] | (_ & _ & Hr)];
      [congruence | lia].
Qed.

Lemma format_seconds_returns_iff_point_witness :
  (exists s, format_seconds (Py.literal 1 7) = Py.Ok s) <->
  has_point (Py.str (Py.literal 1 7)) = true.
Proof.
  apply (format_seconds_returns_iff_point (Py.literal 1 7));
    vm_compute; [reflexivity | split; congruence].
Defined.

(** ** The writes made *)

Lemma step_sent (self : StopWatch) (ev : event) :
  sent (step self ev) = sent self \/
  is_click ev = true /\ exists call, sent (step self ev) = sent self ++ [call].
Proof.
  destruct self as [c st ft aid lbl btn packed cube q n calls].
  destruct ev as [keysym now | id now | outcome | o]; unfold_methods; cbn;
    repeat (case_match; simplify_eq/=); eauto.
Qed.

Lemma step_writes (self : StopWatch) (ev : event) :
  (exists o, cube_choice self = cube_option_value o) ->
  Forall (write_of_config (config self)) (sent self) ->
  (exists o, cube_choice (step self ev) = cube_option_value o) /\
  Forall (write_of_config (config self)) (sent (step self ev)).
Proof.
  destruct self as [c st ft aid lbl btn packed cube q n calls]. cbn.
  intros Hcube Hsent.
  destruct ev as [keysym now | id now | outcome | o]; unfold_methods; cbn;
    repeat (case_match; simplify_eq/=); eauto.
  all: split; [assumption |]; apply Forall_app; split; [assumption |].
  all: constructor; [| constructor].
  all: destruct Hcube as [o ->].
  all: split; cbn; rewrite ?insert_empty; eauto.
Qed.

(** X9: every write the program has handed to the InfluxDB client, in
    any state it reaches, was made with the [INFLUX_URL], [INFLUX_TOKEN],
    [INFLUX_ORG] and [INFLUX_BUCKET] of the config read at startup, for the
    measurement ["solving_time"], with one tag, [cube], whose value is one
    of the dropdown's two entries, and one field, [recorded_time]; and the
    dropdown holds one of its two entries. *)
Theorem writes_follow_config
    (fs : files) (w0 : StopWatch) (evs : list event) :
  __init__ fs = Py.Ok w0 ->
  let self := run w0 evs in
  (exists o, cube_choice self = cube_option_value o) /\
  Forall (write_of_config (config w0)) (sent self).
Proof.
  intros Hinit. cbn zeta.
  assert (H0 : (exists o, cube_choice w0 = cube_option_value o) /\
               Forall (write_of_config (config w0)) (sent w0)).
  { unfold __init__ in Hinit. destruct (get_config fs); [| discriminate].
    destruct (rubiks_cube_png fs); [| discriminate].
    injection Hinit as <-. split; [by exists speed | constructor]. }
  clear Hinit. revert w0 H0.
  induction evs as [| ev evs IH]; intros w0 H0; [exact H0 |].
  cbn [run fold_left]. fold (run (step w0 ev) evs).
  rewrite <- (step_config w0 ev). apply IH.
  rewrite step_config. destruct H0. by apply step_writes.
Qed.

Lemma writes_follow_config_witness :
  let self := run (initial example_config)
                [Key "space" t_start; Key "space" t_stop; Choose classic;
                 Button Influx.Written; Button (Influx.InfluxDBError "timeout")] in
  (exists o, cube_choice self = cube_option_value o) /\
  Forall (write_of_config (config (initial example_config))) (sent self).
Proof.
  apply (writes_follow_config example_files). reflexivity.
Defined.

Lemma step_incomplete (self : StopWatch) (ev : event) :
  complete (config self) = false ->
  sent (step self ev) = sent self /\
  (influx_btn_text self = "Send result to InfluxDb" ->
   influx_btn_text (step self ev) = "Send result to InfluxDb").
Proof.
  intros Hc. destruct ev as [keysym now | id now | outcome | o].
  4: { destruct self; cbn; auto. }
  3: { assert (Hstep : step self (Button outcome) = self); [| by rewrite Hstep].
       unfold step, callback. unfold mbind, M_bind, bind, gets, ret.
       destruct (influx_btn_packed self); [| reflexivity].
       destruct (_final_time self) as [d |]; [| reflexivity].
       destruct (transmit_incomplete self d outcome Hc) as (key & _ & _ & ->).
       reflexivity. }
  all: clear Hc; destruct self as [c st ft aid lbl btn packed cube q n calls];
    unfold_methods; cbn; repeat (case_match; simplify_eq/=); auto.
Qed.

(** X10: with a config that lacks one of the four entries the program
    never hands a write to the InfluxDB client, whatever is pressed,
    clicked or chosen, and the button never reads
    ["Data sent to InfluxDb!"]. *)
Theorem incomplete_config_never_writes
    (fs : files) (w0 : StopWatch) (evs : list event) :
  __init__ fs = Py.Ok w0 ->
  complete (config w0) = false ->
  sent (run w0 evs) = [] /\
  influx_btn_text (run w0 evs) = "Send result to InfluxDb".
Proof.
  intros Hinit Hc.
  assert (H0 : sent w0 = [] /\ influx_btn_text w0 = "Send result to InfluxDb").
  { unfold __init__ in Hinit. destruct (get_config fs); [| discriminate].
    destruct (rubiks_cube_png fs); [| discriminate].
    injection Hinit as <-. auto. }
  clear Hinit. revert w0 Hc H0.
  induction evs as [| ev evs IH]; intros w0 Hc [Hs Hb]; [auto |].
  cbn [run fold_left]. fold (run (step w0 ev) evs).
  destruct (step_incomplete w0 ev Hc) as [Hs' Hb'].
  apply IH; [by rewrite step_config | split; [congruence | auto]].
Qed.

Lemma incomplete_config_never_writes_witness :
  let evs := [Key "space" t_start; Key "space" t_stop; Button Influx.Written] in
  sent (run (initial ∅) evs) = [] /\
  influx_btn_text (run (initial ∅) evs) = "Send result to InfluxDb".
Proof.
  apply (incomplete_config_never_writes empty_config_files); reflexivity.
Defined.

(** X11: writes are made by clicks on the button only, one per click at
    most: over any run of events, from any object, the record of writes
    grows at its end, by no more calls than there are clicks among the
    events. *)
Theorem writes_only_on_clicks (self : StopWatch) (evs : list event) :
  exists new,
    sent (run self evs) = sent self ++ new /\
    (List.length new <= clicks evs)%nat.
Proof.
  revert self. induction evs as [| ev evs IH]; intros self.
  - exists []. split; [by rewrite app_nil_r | cbn; lia].
  - cbn [run fold_left]. fold (run (step self ev) evs).
    destruct (IH (step self ev)) as (new & -> & Hlen).
    unfold clicks in *. cbn [List.filter].
    destruct (step_sent self ev) as [-> | (-> & call & ->)].
    + exists new. split; [reflexivity |]. destruct (is_click ev); cbn; lia.
    + exists (call :: new). split; [by rewrite <- app_assoc |]. cbn. lia.
Qed.

Lemma step_cube_choice (self : StopWatch) (ev : event) :
  cube_choice (step self ev) =
  match ev with
  | Choose o => cube_option_value o
  | _ => cube_choice self
  end.
Proof.
  destruct self as [c st ft aid lbl btn packed cube q n calls].
  destruct ev as [keysym now | id now | outcome | o]; unfold_methods; cbn;
    repeat (case_match; simplify_eq/=); reflexivity.
Qed.

Lemma run_cube_choice (evs : list event) (self : StopWatch) (o : cube_option) :
  cube_choice self = cube_option_value o ->
  cube_choice (run self evs) =
  cube_option_value
    (fold_left (fun o ev => match ev with Choose o' => o' | _ => o end) evs o).
Proof.
  revert self o. induction evs as [| ev evs IH]; intros self o Ho; [exact Ho |].
  cbn [run fold_left]. fold (run (step self ev) evs).
  apply IH. rewrite step_cube_choice. destruct ev; auto.
Qed.

(** X12: the cube kind a write is tagged with is the entry of the
    dropdown chosen last before the click, ["speed"] when none was chosen:
    the choice outlives stops and resets.  (A click with a recorded time
    and a complete config, in any state the program reaches.) *)
Theorem write_carries_last_choice
    (fs : files) (w0 : StopWatch) (evs : list event)
    (outcome : Influx.write_outcome) :
  __init__ fs = Py.Ok w0 ->
  complete (config w0) = true ->
  _final_time (run w0 evs) <> None ->
  let self := run w0 evs in
  exists call,
    sent (step self (Button outcome)) = sent self ++ [call] /\
    Influx.tags (Influx.record call) =
      {[ "cube" := cube_option_value (chosen evs) ]}.
Proof.
  intros Hinit Hc Hft self.
  assert (Hpacked : influx_btn_packed self = true)
    by (apply run_button_shown; [apply (init_button_shown fs), Hinit | exact Hft]).
  assert (Hcube : cube_choice self = cube_option_value (chosen evs)).
  { apply run_cube_choice. unfold __init__ in Hinit.
    destruct (get_config fs); [| discriminate].
    destruct (rubiks_cube_png fs); [| discriminate].
    injection Hinit as <-. reflexivity. }
  fold self in Hft. destruct (_final_time self) as [d |] eqn:Hd; [| done].
  assert (Hc' : complete (config self) = true)
    by (unfold self; rewrite run_config; exact Hc).
  destruct (send_step self d outcome Hpacked Hd Hc')
    as (u & t & o & b & _ & _ & _ & _ & Hstep).
  eexists. rewrite Hstep. split; [destruct outcome; reflexivity |].
  cbn. rewrite Hcube, insert_empty. reflexivity.
Qed.

Lemma write_carries_last_choice_witness :
  let evs := [Choose classic; Key "space" t_start; Key "space" t_stop;
              Key "a" t_stop; Key "space" t_start; Key "space" t_stop] in
  let self := run (initial example_config) evs in
  exists call,
    sent (step self (Button Influx.Written)) = sent self ++ [call] /\
    Influx.tags (Influx.record call) = {[ "cube" := "classic" ]}.
Proof.
  apply (write_carries_last_choice example_files (initial example_config)
           [Choose classic; Key "space" t_start; Key "space" t_stop;
            Key "a" t_stop; Key "space" t_start; Key "space" t_stop]
           Influx.Written);
    vm_compute; congruence.
Defined.

(** ** The exceptions callbacks raise *)

Lemma transmit_raises
    (self : StopWatch) (recorded_seconds : option Py.float)
    (outcome : Influx.write_outcome) (e : Py.exception) :
  snd (transmit_to_influxdb recorded_seconds outcome self) = Py.Raise e ->
  (exists key, key ∈ required_fields /\ config self !! key = None /\
               e = Py.KeyError key) \/
  (complete (config self) = true /\ recorded_seconds <> None /\
   outcome = Influx.Raises e).
Proof.
  destruct self as [c st ft aid lbl btn packed cube q n calls].
  destruct recorded_seconds as [d |]; unfold_methods; cbn; [| discriminate].
  destruct (c !! "INFLUX_URL") as [u |] eqn:Hu; cbn;
    [| intros [= <-]; left; exists "INFLUX_URL"; repeat split; [set_solver | done]].
  destruct (c !! "INFLUX_TOKEN") as [t |] eqn:Ht; cbn;
    [| intros [= <-]; left; exists "INFLUX_TOKEN"; repeat split; [set_solver | done]].
  destruct (c !! "INFLUX_ORG") as [o |] eqn:Ho; cbn;
    [| intros [= <-]; left; exists "INFLUX_ORG"; repeat split; [set_solver | done]].
  destruct (c !! "INFLUX_BUCKET") as [b |] eqn:Hb; cbn;
    [| intros [= <-]; left; exists "INFLUX_BUCKET"; repeat split; [set_solver | done]].
  destruct outcome as [| message | e']; cbn; [discriminate | discriminate |].
  intros [= <-]. right. split; [reflexivity | split; [discriminate | reflexivity]].
Qed.

(** X13: the exceptions a callback can raise in a state the program
    reaches.  A key press or a refresh raises only what [format_seconds]
    raises for the time elapsed since the start instant, which is
    [IndexError], [OverflowError] or [OSError]: [stop()] always finds an
    identifier to cancel and a start instant to subtract.  A click raises
    the [KeyError] of an entry the config lacks, or, with a complete
    config and a recorded time, the exception the write raised that is no
    [InfluxDBError], which nothing catches.  A choice in the dropdown
    raises nothing. *)
Theorem callback_exceptions
    (fs : files) (w0 : StopWatch) (evs : list event)
    (ev : event) (e : Py.exception) :
  __init__ fs = Py.Ok w0 ->
  snd (callback ev (run w0 evs)) = Py.Raise e ->
  match ev with
  | Key _ now | After _ now =>
      (exists t0, _start_time (run w0 evs) = Some t0 /\
                  format_seconds (Py.float_sub now t0) = Py.Raise e) /\
      (e = Py.IndexError \/ e = Py.OverflowError \/ e = Py.OSError)
  | Button outcome =>
      (exists key, key ∈ required_fields /\ config w0 !! key = None /\
                   e = Py.KeyError key) \/
      (complete (config w0) = true /\ _final_time (run w0 evs) <> None /\
       outcome = Influx.Raises e)
  | Choose _ => False
  end.
Proof.
  intros Hinit Hraise.
  assert (Hwf : well_formed (run w0 evs))
    by (apply run_well_formed, (init_well_formed fs), Hinit).
  pose proof (wf_after _ Hwf) as Hafter.
  pose proof (run_config evs w0) as Hcfg.
  assert (Hfs : forall x, format_seconds x = Py.Raise e ->
                          e = Py.IndexError \/ e = Py.OverflowError \/ e = Py.OSError).
  { intros x Hx.
    destruct (format_seconds_raises_cases x e Hx) as [[-> _] | (_ & [-> | ->] & _)];
      auto. }
  set (self := run w0 evs) in *. clearbody self.
  destruct ev as [keysym now | id now | outcome | o].
  - assert (H : exists t0, _start_time self = Some t0 /\
                           format_seconds (Py.float_sub now t0) = Py.Raise e).
    { destruct self as [c st ft aid lbl btn packed cube q n calls].
      cbn in Hafter. unfold_methods; cbn in Hraise |- *.
      destruct st as [t0 |]; cbn in Hraise.
      - destruct aid as [id |]; [| exfalso; by apply Hafter].
        repeat (case_match; simplify_eq/=); eauto.
      - destruct (String.eqb keysym "space"); cbn in Hraise;
          repeat (case_match; simplify_eq/=); discriminate. }
    split; [exact H |]. destruct H as (t0 & _ & H). eauto.
  - assert (H : exists t0, _start_time self = Some t0 /\
                           format_seconds (Py.float_sub now t0) = Py.Raise e).
    { destruct self as [c st ft aid lbl btn packed cube q n calls].
      unfold_methods; cbn in Hraise |- *.
      repeat (case_match; simplify_eq/=); eauto. }
    split; [exact H |]. destruct H as (t0 & _ & H). eauto.
  - rewrite <- Hcfg. unfold callback in Hraise.
    unfold mbind, M_bind, bind, gets, ret in Hraise.
    destruct (influx_btn_packed self); [| discriminate].
    apply (transmit_raises self (_final_time self) outcome e Hraise).
  - destruct self; discriminate.
Qed.

Lemma callback_exceptions_witness :
  let evs := [Key "space" t_start; Key "space" t_stop] in
  match Button (Influx.Raises Py.NewConnectionError) with
  | Key _ now | After _ now =>
      (exists t0, _start_time (run (initial example_config) evs) = Some t0 /\
                  format_seconds (Py.float_sub now t0) =
                    Py.Raise Py.NewConnectionError) /\
      (Py.NewConnectionError = Py.IndexError \/
       Py.NewConnectionError = Py.OverflowError \/
       Py.NewConnectionError = Py.OSError)
  | Button outcome =>
      (exists key, key ∈ required_fields /\
                   config (initial example_config) !! key = None /\
                   Py.NewConnectionError = Py.KeyError key) \/
      (complete (config (initial example_config)) = true /\
       _final_time (run (initial example_config) evs) <> None /\
       outcome = Influx.Raises Py.NewConnectionError)
  | Choose _ => False
  end.
Proof.
  apply (callback_exceptions example_files (initial example_config)
           [Key "space" t_start; Key "space" t_stop]
           (Button (Influx.Raises Py.NewConnectionError)) Py.NewConnectionError);
    vm_compute; reflexivity.
Defined.

(** ** The caption of the button and the last write *)

Lemma step_caption (self : StopWatch) (ev : event) :
  invariant self -> clock_ok self ev = true ->
  (influx_btn_text self = "Data sent to InfluxDb!" ->
   exists d calls call,
     _final_time self = Some d /\ sent self = calls ++ [call] /\
     Influx.fields (Influx.record call) = {[ "recorded_time" := d ]}) ->
  influx_btn_text (step self ev) = "Data sent to InfluxDb!" ->
  exists d calls call,
    _final_time (step self ev) = Some d /\
    sent (step self ev) = calls ++ [call] /\
    Influx.fields (Influx.record call) = {[ "recorded_time" := d ]}.
Proof.
  intros [Hidle Htrue Hbtn Hpacked Hclock Hafter] Hok.
  destruct self as [c st ft aid lbl btn packed cube q n calls].
  cbn in Hidle, Htrue, Hbtn, Hpacked, Hclock, Hafter, Hok |- *.
  intros Hcap.
  destruct ft as [d |].
  - pose proof (Htrue d eq_refl) as Hd.
    destruct st as [t0 |]; [| by specialize (Hidle eq_refl)].
    destruct ev as [keysym now | id now | outcome | o]; unfold_methods; cbn;
      rewrite ?Hd; cbn.
    + destruct (String.eqb keysym "space"); destruct (String.eqb keysym "a");
        cbn; rewrite ?Hd; cbn; first [exact Hcap | discriminate].
    + repeat (case_match; simplify_eq/=); exact Hcap.
    + repeat (case_match; simplify_eq/=); try exact Hcap.
      all: intros _; eexists _, _, _; split; [reflexivity |];
        split; [reflexivity |]; cbn; by rewrite insert_empty.
    + exact Hcap.
  - destruct (Hbtn eq_refl) as [-> ->].
    destruct ev as [keysym now | id now | outcome | o]; unfold_methods; cbn;
      repeat (case_match; simplify_eq/=); discriminate.
Qed.

(** X14: with the clock moving on, whenever the button reads
    ["Data sent to InfluxDb!"] a time is on record and the last write
    handed to the InfluxDB client carried that time as its
    [recorded_time]. *)
Theorem caption_tells_last_write
    (fs : files) (w0 : StopWatch) (evs : list event) :
  __init__ fs = Py.Ok w0 ->
  clock_moves_on w0 evs = true ->
  influx_btn_text (run w0 evs) = "Data sent to InfluxDb!" ->
  exists d calls call,
    _final_time (run w0 evs) = Some d /\
    sent (run w0 evs) = calls ++ [call] /\
    Influx.fields (Influx.record call) = {[ "recorded_time" := d ]}.
Proof.
  intros Hinit Hclock.
  assert (Hinv : invariant w0) by (apply (init_invariant fs), Hinit).
  assert (H0 : influx_btn_text w0 = "Data sent to InfluxDb!" ->
               exists d calls call,
                 _final_time w0 = Some d /\ sent w0 = calls ++ [call] /\
                 Influx.fields (Influx.record call) = {[ "recorded_time" := d ]}).
  { unfold __init__ in Hinit. destruct (get_config fs); [| discriminate].
    destruct (rubiks_cube_png fs); [| discriminate].
    injection Hinit as <-. discriminate. }
  clear Hinit. revert w0 Hclock Hinv H0.
  induction evs as [| ev evs IH]; intros w0 Hclock Hinv H0; [exact H0 |].
  cbn [clock_moves_on] in Hclock. apply andb_true_iff in Hclock as [Hev Hevs].
  cbn [run fold_left]. fold (run (step w0 ev) evs).
  apply IH; [exact Hevs | by apply step_invariant | by apply step_caption].
Qed.

Lemma caption_tells_last_write_witness :
  let evs := [Key "space" t_start; Key "space" t_stop; Button Influx.Written;
              Button (Influx.InfluxDBError "timeout")] in
  exists d calls call,
    _final_time (run (initial example_config) evs) = Some d /\
    sent (run (initial example_config) evs) = calls ++ [call] /\
    Influx.fields (Influx.record call) = {[ "recorded_time" := d ]}.
Proof.
  apply (caption_tells_last_write example_files); vm_compute; reflexivity.
Defined.

(** Without the moving clock the caption can be stale: a stop at the very
    reading of the start records [0.0], a click sends it, and the next press
    of the start/stop key records another time under the same caption. *)
Example caption_after_a_zero_time :
  let self := run (initial example_config)
                [Key "space" t_start; Key "space" t_start;
                 Button Influx.Written; Key "space" t_stop] in
  influx_btn_text self = "Data sent to InfluxDb!" /\
  _final_time self = Some (Py.float_sub t_stop t_start) /\
  map (fun call => Influx.fields (Influx.record call)) (sent self) =
    [ {[ "recorded_time" := S754_zero false ]} ].
Proof. vm_compute. repeat split. Qed.

(** ** A stop at the reading of the start *)

Lemma float_sub_diag (x : Py.float) :
  Py.is_finite x = true -> Py.float_sub x x = S754_zero false.
Proof.
  destruct x as [s | s | | s m e]; try discriminate; intros _.
  - by destruct s.
  - unfold Py.float_sub, SFsub. rewrite Z.min_id.
    unfold shl_align. rewrite Z.sub_diag. cbn [fst]. reflexivity.
Qed.

(** X15: a press of the start/stop key that reads the clock at the very
    instant of the start records [0.0] and shows the send button with
    ["Elapsed time: 00:00:00.0 seconds"], but the handler's guards take
    [0.0] for no recorded time: the session still counts as running, the
    reset key is ignored, and the next press of the start/stop key stops
    again and replaces the recorded time. *)
Theorem zero_time_is_no_stop
    (fs : files) (w0 : StopWatch) (evs : list event) (t0 : Py.float) :
  __init__ fs = Py.Ok w0 ->
  _start_time (run w0 evs) = Some t0 ->
  truth (_final_time (run w0 evs)) = false ->
  Py.is_finite t0 = true ->
  let self' := step (run w0 evs) (Key "space" t0) in
  _final_time self' = Some (S754_zero false) /\
  influx_btn_packed self' = true /\
  label_text self' = "Elapsed time: 00:00:00.0 seconds" /\
  state_of self' = Running /\
  (forall now, step self' (Key "a" now) = self') /\
  (forall now, _start_time (step self' (Key "space" now)) = Some t0 /\
               _final_time (step self' (Key "space" now)) =
                 Some (Py.float_sub now t0)).
Proof.
  intros Hinit Hst Hft Hfin.
  assert (Hwf : well_formed (run w0 evs))
    by (apply run_well_formed, (init_well_formed fs), Hinit).
  pose proof (wf_after _ Hwf) as Hafter. clear Hwf.
  set (self := run w0 evs) in *. clearbody self.
  destruct self as [c st ft aid lbl btn packed cube q n calls].
  cbn in Hst, Hft, Hafter. subst st.
  destruct aid as [id |]; [| exfalso; by apply Hafter].
  cbn zeta. unfold state_of. unfold_methods; cbn. rewrite Hft; cbn.
  rewrite (float_sub_diag t0 Hfin).
  change (format_seconds (S754_zero false)) with (@Py.Ok string "00:00:00.0").
  cbn. repeat split.
  all: destruct (format_seconds (Py.float_sub now t0)); reflexivity.
Qed.

Lemma zero_time_is_no_stop_witness :
  let self' := step (run (initial example_config) [Key "space" t_start])
                 (Key "space" t_start) in
  _final_time self' = Some (S754_zero false) /\
  influx_btn_packed self' = true /\
  label_text self' = "Elapsed time: 00:00:00.0 seconds" /\
  state_of self' = Running /\
  (forall now, step self' (Key "a" now) = self') /\
  (forall now, _start_time (step self' (Key "space" now)) = Some t_start /\
               _final_time (step self' (Key "space" now)) =
                 Some (Py.float_sub now t_start)).
Proof.
  apply (zero_time_is_no_stop example_files (initial example_config)
           [Key "space" t_start] t_start); vm_compute; reflexivity.
Defined.

(** ** The window before a start *)

Lemma step_idle_window (self : StopWatch) (ev : event) :
  refresh_invariant self ->
  (influx_btn_packed self = true <-> _final_time self <> None) ->
  (_start_time self = None ->
   influx_btn_text self = "Send result to InfluxDb" /\
   (label_text self = "Press space to start the stopwatch" \/
    label_text self = "Hit space to start the stopwatch!")) ->
  _start_time (step self ev) = None ->
  influx_btn_text (step self ev) = "Send result to InfluxDb" /\
  (label_text (step self ev) = "Press space to start the stopwatch" \/
   label_text (step self ev) = "Hit space to start the stopwatch!").
Proof.
  intros [Hidle _ Hbefore _ _] Hshown.
  destruct self as [c st ft aid lbl btn packed cube q n calls].
  cbn in Hidle, Hbefore, Hshown |- *. intros Hwin.
  destruct st as [t0 |].
  - clear Hwin Hidle Hbefore.
    destruct ev as [keysym now | id now | outcome | o]; unfold_methods; cbn;
      repeat (case_match; simplify_eq/=); try discriminate; auto.
  - specialize (Hidle eq_refl). specialize (Hbefore eq_refl).
    specialize (Hwin eq_refl). subst ft q.
    assert (Hpacked : packed = false).
    { destruct packed; [| reflexivity]. by destruct (proj1 Hshown eq_refl). }
    subst packed.
    destruct ev as [keysym now | id now | outcome | o]; unfold_methods; cbn;
      repeat (case_match; simplify_eq/=); try discriminate; auto.
Qed.

(** X16: whenever the program has no start instant, before the first
    start and after every reset, the window is the same but for the
    prompt: no time is recorded, the send button is off screen with the
    caption ["Send result to InfluxDb"], no refresh is pending, and the label
    reads one of the two prompts to press space. *)
Theorem idle_window
    (fs : files) (w0 : StopWatch) (evs : list event) :
  __init__ fs = Py.Ok w0 ->
  _start_time (run w0 evs) = None ->
  let self := run w0 evs in
  _final_time self = None /\
  influx_btn_packed self = false /\
  influx_btn_text self = "Send result to InfluxDb" /\
  after_queue self = [] /\
  (label_text self = "Press space to start the stopwatch" \/
   label_text self = "Hit space to start the stopwatch!").
Proof.
  intros Hinit Hst self.
  assert (Hinv : refresh_invariant self)
    by (apply run_refresh_invariant, (init_refresh_invariant fs), Hinit).
  assert (Hshown : influx_btn_packed self = true <-> _final_time self <> None)
    by (apply run_button_shown, (init_button_shown fs), Hinit).
  pose proof (ri_idle self Hinv Hst) as Hft.
  split; [exact Hft |].
  split; [destruct (influx_btn_packed self); [| reflexivity];
          by destruct (proj1 Hshown eq_refl) |].
  assert (Hwin : influx_btn_text self = "Send result to InfluxDb" /\
                 (label_text self = "Press space to start the stopwatch" \/
                  label_text self = "Hit space to start the stopwatch!"));
    [| destruct Hwin; repeat split; [assumption | by apply (ri_before self Hinv) | assumption]].
  clear Hinv Hshown Hft. revert Hst. subst self.
  assert (Hinv0 : refresh_invariant w0) by (apply (init_refresh_invariant fs), Hinit).
  assert (Hshown0 : influx_btn_packed w0 = true <-> _final_time w0 <> None)
    by (apply (init_button_shown fs), Hinit).
  assert (Hwin0 : _start_time w0 = None ->
            influx_btn_text w0 = "Send result to InfluxDb" /\
            (label_text w0 = "Press space to start the stopwatch" \/
             label_text w0 = "Hit space to start the stopwatch!")).
  { unfold __init__ in Hinit. destruct (get_config fs); [| discriminate].
    destruct (rubiks_cube_png fs); [| discriminate].
    injection Hinit as <-. cbn. auto. }
  clear Hinit. revert w0 Hinv0 Hshown0 Hwin0.
  induction evs as [| ev evs IH]; intros w0 Hinv0 Hshown0 Hwin0; [exact Hwin0 |].
  cbn [run fold_left]. fold (run (step w0 ev) evs).
  apply IH;
    [by apply step_refresh_invariant | by apply step_button_shown
     | by apply step_idle_window].
Qed.

Lemma idle_window_witness :
  let self := run (initial example_config)
                [Key "space" t_start; Key "space" t_stop;
                 Button (Influx.InfluxDBError "timeout"); Key "a" t_stop] in
  _final_time self = None /\
  influx_btn_packed self = false /\
  influx_btn_text self = "Send result to InfluxDb" /\
  after_queue self = [] /\
  (label_text self = "Press space to start the stopwatch" \/
   label_text self = "Hit space to start the stopwatch!").
Proof.
  apply (idle_window example_files (initial example_config)
           [Key "space" t_start; Key "space" t_stop;
            Button (Influx.InfluxDBError "timeout"); Key "a" t_stop]);
    reflexivity.
Defined.

(** X17: a press of the start/stop key with no start instant runs
    [display_time()] before [start()]: the label reads ["Starting...."],
    not a time, the first refresh is queued under a new identifier, which
    [_after_id] holds, the start instant is the clock reading, and no
    exception is raised. *)
Theorem start_shows_starting
    (fs : files) (w0 : StopWatch) (evs : list event) (now : Py.float) :
  __init__ fs = Py.Ok w0 ->
  _start_time (run w0 evs) = None ->
  let self := run w0 evs in
  let self' := step self (Key "space" now) in
  callback (Key "space" now) self = (self', Py.Ok tt) /\
  label_text self' = "Starting...." /\
  after_queue self' = [after_count self] /\
  _after_id self' = Some (after_count self) /\
  after_count self' = S (after_count self) /\
  _start_time self' = Some now /\
  _final_time self' = None /\
  influx_btn_packed self' = false.
Proof.
  intros Hinit Hst self self'.
  assert (Hinv : refresh_invariant self)
    by (apply run_refresh_invariant, (init_refresh_invariant fs), Hinit).
  assert (Hshown : influx_btn_packed self = true <-> _final_time self <> None)
    by (apply run_button_shown, (init_button_shown fs), Hinit).
  pose proof (ri_idle self Hinv Hst) as Hft.
  pose proof (ri_before self Hinv Hst) as Hq.
  assert (Hpacked : influx_btn_packed self = false).
  { destruct (influx_btn_packed self); [| reflexivity].
    by destruct (proj1 Hshown eq_refl). }
  subst self'. fold self in Hst. clearbody self. clear Hinv Hshown.
  destruct self as [c st ft aid lbl btn packed cube q n calls].
  cbn in Hst, Hft, Hq, Hpacked. subst st ft q packed.
  unfold_methods; cbn. repeat split.
Qed.

Lemma start_shows_starting_witness :
  let self := run (initial example_config)
                [Key "space" t_start; Key "space" t_stop; Key "a" t_stop] in
  let self' := step self (Key "space" t_start) in
  callback (Key "space" t_start) self = (self', Py.Ok tt) /\
  label_text self' = "Starting...." /\
  after_queue self' = [after_count self] /\
  _after_id self' = Some (after_count self) /\
  after_count self' = S (after_count self) /\
  _start_time self' = Some t_start /\
  _final_time self' = None /\
  influx_btn_packed self' = false.
Proof.
  apply (start_shows_starting example_files (initial example_config)
           [Key "space" t_start; Key "space" t_stop; Key "a" t_stop] t_start);
    reflexivity.
Defined.

(** ** Durations for which [format_seconds] returns *)

Lemma scale_to_shift (x : Py.scaled) (P Q p q : Z) :
  P <= p <= Py.exp2 x -> Q <= q <= Py.exp10 x ->
  Py.scale_to x P Q = Py.scale_to x p q * (2 ^ (p - P) * 10 ^ (q - Q)).
Proof.
  intros HP HQ. unfold Py.scale_to.
  replace (Py.exp2 x - P) with ((Py.exp2 x - p) + (p - P)) by lia.
  replace (Py.exp10 x - Q) with ((Py.exp10 x - q) + (q - Q)) by lia.
  rewrite !Z.pow_add_r by lia. ring.
Qed.

Lemma scaled_compare_shift (x y : Py.scaled) (P Q : Z) :
  P <= Py.exp2 x -> P <= Py.exp2 y -> Q <= Py.exp10 x -> Q <= Py.exp10 y ->
  Py.scaled_compare x y = (Py.scale_to x P Q ?= Py.scale_to y P Q).
Proof.
  intros Hx2 Hy2 Hx10 Hy10. unfold Py.scaled_compare.
  set (p := Z.min (Py.exp2 x) (Py.exp2 y)).
  set (q := Z.min (Py.exp10 x) (Py.exp10 y)).
  rewrite (scale_to_shift x P Q p q), (scale_to_shift y P Q p q) by lia.
  assert (Hpos : 0 < 2 ^ (p - P) * 10 ^ (q - Q)).
  { apply Z.mul_pos_pos; apply Z.pow_pos_nonneg; lia. }
  set (c := 2 ^ (p - P) * 10 ^ (q - Q)) in *. clearbody c.
  destruct (Z.compare_spec (Py.scale_to x p q) (Py.scale_to y p q)) as [-> | H | H].
  - symmetry. apply Z.compare_refl.
  - symmetry. apply Z.compare_lt_iff. nia.
  - symmetry. apply Z.compare_gt_iff. nia.
Qed.

Lemma scaled_ltb_lt (x y : Py.scaled) (P Q : Z) :
  P <= Py.exp2 x -> P <= Py.exp2 y -> Q <= Py.exp10 x -> Q <= Py.exp10 y ->
  Py.scaled_ltb x y = true <-> Py.scale_to x P Q < Py.scale_to y P Q.
Proof.
  intros Hx2 Hy2 Hx10 Hy10. unfold Py.scaled_ltb.
  rewrite (scaled_compare_shift x y P Q) by assumption.
  rewrite <- Z.compare_lt_iff.
  destruct (_ ?= _); split; congruence.
Qed.

Lemma scaled_leb_le (x y : Py.scaled) (P Q : Z) :
  P <= Py.exp2 x -> P <= Py.exp2 y -> Q <= Py.exp10 x -> Q <= Py.exp10 y ->
  Py.scaled_leb x y = true <-> Py.scale_to x P Q <= Py.scale_to y P Q.
Proof.
  intros Hx2 Hy2 Hx10 Hy10. unfold Py.scaled_leb.
  rewrite (scaled_compare_shift x y P Q) by assumption.
  rewrite <- Z.compare_le_iff.
  destruct (_ ?= _); split; congruence.
Qed.

Ltac scaled_chain x y z :=
  let P := fresh "P" in
  let Q := fresh "Q" in
  set (P := Z.min (Py.exp2 x) (Z.min (Py.exp2 y) (Py.exp2 z)));
  set (Q := Z.min (Py.exp10 x) (Z.min (Py.exp10 y) (Py.exp10 z)));
  rewrite ?(scaled_ltb_lt x y P Q), ?(scaled_leb_le x y P Q),
    ?(scaled_ltb_lt y z P Q), ?(scaled_leb_le y z P Q),
    ?(scaled_ltb_lt x z P Q), ?(scaled_leb_le x z P Q) by lia;
  lia.

Lemma scaled_lt_le_trans (x y z : Py.scaled) :
  Py.scaled_ltb x y = true -> Py.scaled_leb y z = true -> Py.scaled_ltb x z = true.
Proof. scaled_chain x y z. Qed.

Lemma scaled_le_lt_trans (x y z : Py.scaled) :
  Py.scaled_leb x y = true -> Py.scaled_ltb y z = true -> Py.scaled_ltb x z = true.
Proof. scaled_chain x y z. Qed.

Lemma scaled_le_le_trans (x y z : Py.scaled) :
  Py.scaled_leb x y = true -> Py.scaled_leb y z = true -> Py.scaled_leb x z = true.
Proof. scaled_chain x y z. Qed.

Lemma scaled_ltb_irrefl (x : Py.scaled) : Py.scaled_ltb x x = false.
Proof.
  unfold Py.scaled_ltb, Py.scaled_compare. by rewrite Z.compare_refl.
Qed.

Lemma pow2_le_pow2 (a b : Z) :
  a <= b -> Py.scaled_leb (Py.Scaled 1 a 0) (Py.Scaled 1 b 0) = true.
Proof.
  intros Hab. apply (scaled_leb_le _ _ a 0); cbn; try lia.
  unfold Py.scale_to; cbn. rewrite Z.sub_diag.
  assert (0 < 2 ^ (b - a)) by (apply Z.pow_pos_nonneg; lia). lia.
Qed.

Lemma pow10_lt_pow10 (a b : Z) :
  Py.scaled_ltb (Py.Scaled 1 0 a) (Py.Scaled 1 0 b) = true -> a < b.
Proof.
  intros H. destruct (Z.lt_ge_cases a b) as [Hlt | Hge]; [exact Hlt |].
  apply (scaled_ltb_lt _ _ 0 b) in H; cbn; try lia.
  unfold Py.scale_to in H; cbn [Py.coef Py.exp2 Py.exp10] in H.
  replace (b - b) with 0 in H by lia. rewrite !Z.pow_0_r in H.
  assert (0 < 10 ^ (a - b)) by (apply Z.pow_pos_nonneg; lia). lia.
Qed.

Lemma value_below_pow2 (m : positive) (e : Z) :
  Py.scaled_ltb (Py.value m e) (Py.Scaled 1 (Py.bits m e) 0) = true.
Proof.
  pose proof (Z.log2_nonneg (Z.pos m)) as HL.
  apply (scaled_ltb_lt _ _ e 0); unfold Py.bits, Py.value;
    cbn [Py.coef Py.exp2 Py.exp10]; try lia.
  unfold Py.scale_to; cbn [Py.coef Py.exp2 Py.exp10].
  replace (e - e) with 0 by lia. replace (0 - 0) with 0 by lia.
  replace (Z.log2 (Z.pos m) + 1 + e - e) with (Z.succ (Z.log2 (Z.pos m))) by lia.
  rewrite !Z.pow_0_r.
  pose proof (Z.log2_spec (Z.pos m)). lia.
Qed.

Lemma pow2_below_value (m : positive) (e : Z) :
  Py.scaled_leb (Py.Scaled 1 (Py.bits m e - 1) 0) (Py.value m e) = true.
Proof.
  pose proof (Z.log2_nonneg (Z.pos m)) as HL.
  apply (scaled_leb_le _ _ e 0); unfold Py.bits, Py.value;
    cbn [Py.coef Py.exp2 Py.exp10]; try lia.
  unfold Py.scale_to; cbn [Py.coef Py.exp2 Py.exp10].
  replace (e - e) with 0 by lia. replace (0 - 0) with 0 by lia.
  replace (Z.log2 (Z.pos m) + 1 + e - 1 - e) with (Z.log2 (Z.pos m)) by lia.
  rewrite !Z.pow_0_r.
  pose proof (Z.log2_spec (Z.pos m)). lia.
Qed.

(** The search for the decimal point position stops at the first power of
    ten above the value, when there is one within its steps. *)
Lemma find_decpt_least (m : positive) (e : Z) (fuel : nat) (k0 j K : Z) :
  k0 <= j < k0 + Z.of_nat fuel ->
  Py.scaled_ltb (Py.value m e) (Py.Scaled 1 0 j) = true ->
  k0 <= K ->
  Py.scaled_ltb (Py.value m e) (Py.Scaled 1 0 K) = true ->
  Py.find_decpt m e fuel k0 <= K.
Proof.
  revert k0. induction fuel as [| fuel IH]; intros k0 Hj Hvj HK HvK; [lia |].
  cbn [Py.find_decpt].
  destruct (Py.scaled_ltb (Py.value m e) (Py.Scaled 1 0 k0)) eqn:Hk0; [exact HK |].
  apply IH; try assumption.
  - assert (j <> k0) by (intros ->; congruence). lia.
  - assert (K <> k0) by (intros ->; congruence). lia.
Qed.

(** The estimate the search starts from is at most seven below a power of
    ten above [2^b], for the binary exponents of the range. *)
Lemma estimate_reaches (b : Z) :
  -13 <= b <= 50 ->
  Py.scaled_leb (Py.Scaled 1 b 0)
    (Py.Scaled 1 0 ((b - 1) * 30103 / 100000 - 1 + 7)) = true.
Proof.
  intros Hb.
  assert (H : exists n : nat, (n < 64)%nat /\ b = -13 + Z.of_nat n)
    by (exists (Z.to_nat (b + 13)); lia).
  destruct H as (n & Hn & ->). clear Hb.
  do 64 (destruct n as [| n]; [vm_compute; reflexivity |]). lia.
Qed.

Lemma decpt_in_range (m : positive) (e : Z) :
  Py.scaled_leb (Py.Scaled 1 0 (-4)) (Py.value m e) = true ->
  Py.scaled_ltb (Py.value m e) (Py.Scaled 1 0 15) = true ->
  -4 < Py.decpt_of_value m e <= 15.
Proof.
  intros Hlo Hhi.
  pose proof (value_below_pow2 m e) as Hup.
  pose proof (pow2_below_value m e) as Hdown.
  assert (Hbits : -13 <= Py.bits m e <= 50).
  { split.
    - destruct (Z.lt_ge_cases (Py.bits m e) (-13)) as [Hlt | Hge]; [| lia].
      exfalso.
      pose proof (pow2_le_pow2 (Py.bits m e) (-14) ltac:(lia)) as H1.
      assert (H2 : Py.scaled_leb (Py.Scaled 1 (-14) 0) (Py.Scaled 1 0 (-4)) = true)
        by (vm_compute; reflexivity).
      pose proof (scaled_lt_le_trans _ _ _ Hup
                    (scaled_le_le_trans _ _ _ H1 (scaled_le_le_trans _ _ _ H2 Hlo))) as H.
      rewrite scaled_ltb_irrefl in H. discriminate.
    - destruct (Z.lt_ge_cases 50 (Py.bits m e)) as [Hlt | Hge]; [| lia].
      exfalso.
      pose proof (pow2_le_pow2 50 (Py.bits m e - 1) ltac:(lia)) as H1.
      assert (H2 : Py.scaled_leb (Py.Scaled 1 0 15) (Py.Scaled 1 50 0) = true)
        by (vm_compute; reflexivity).
      pose proof (scaled_lt_le_trans _ _ _ Hhi
                    (scaled_le_le_trans _ _ _ H2 (scaled_le_le_trans _ _ _ H1 Hdown))) as H.
      rewrite scaled_ltb_irrefl in H. discriminate. }
  split.
  - apply pow10_lt_pow10.
    apply (scaled_le_lt_trans _ _ _ Hlo). apply find_decpt_above.
  - unfold Py.decpt_of_value.
    set (k0 := (Py.bits m e - 1) * 30103 / 100000 - 1).
    apply (find_decpt_least m e 8 k0 (k0 + 7) 15); [lia | | | exact Hhi].
    + apply (scaled_lt_le_trans _ _ _ Hup). apply estimate_reaches, Hbits.
    + subst k0. Z.div_mod_to_equations. lia.
Qed.

Lemma all_digits_app (s1 s2 : string) :
  all_digits (s1 +:+ s2) = all_digits s1 && all_digits s2.
Proof.
  induction s1 as [| c s1 IH]; [reflexivity |].
  simpl. rewrite IH. apply andb_assoc.
Qed.

Lemma all_digits_zeros (n : nat) : all_digits (Py.zeros n) = true.
Proof. induction n as [| n IH]; [reflexivity | exact IH]. Qed.

Lemma all_digits_take (n : nat) (s : string) :
  all_digits s = true -> all_digits (Py.take n s) = true.
Proof.
  revert s. induction n as [| n IH]; intros [| c s]; try reflexivity.
  cbn [all_digits Py.take]. intros H. apply andb_true_iff in H as [Hc Hs].
  rewrite Hc, (IH s Hs). reflexivity.
Qed.

Lemma all_digits_drop (n : nat) (s : string) :
  all_digits s = true -> all_digits (Py.drop n s) = true.
Proof.
  revert s. induction n as [| n IH]; intros [| c s] H; try exact H.
  cbn [all_digits] in H. apply andb_true_iff in H as [_ Hs].
  cbn [Py.drop]. apply IH, Hs.
Qed.

Lemma all_digits_digits_aux (fuel : nat) (n : Z) (acc : string) :
  all_digits acc = true -> all_digits (Py.digits_aux fuel n acc) = true.
Proof.
  revert n acc. induction fuel as [| fuel IH]; intros n acc Hacc; [exact Hacc |].
  cbn [Py.digits_aux].
  assert (Hacc' : all_digits (String (Py.digit_char (n mod 10)) acc) = true).
  { cbn [all_digits]. rewrite is_digit_digit_char, Hacc; [reflexivity |].
    pose proof (Z.mod_pos_bound n 10). lia. }
  destruct (n <? 10); [exact Hacc' | apply IH, Hacc'].
Qed.

Lemma all_digits_digits_of (n : Z) : all_digits (Py.digits_of n) = true.
Proof. apply all_digits_digits_aux. reflexivity. Qed.

Lemma append_assoc (s1 s2 s3 : string) :
  (s1 +:+ s2) +:+ s3 = s1 +:+ s2 +:+ s3.
Proof.
  induction s1 as [| c s1 IH]; [reflexivity |].
  change (String c ((s1 +:+ s2) +:+ s3) = String c (s1 +:+ s2 +:+ s3)).
  by rewrite IH.
Qed.

(** Positional notation: digits, a point, digits. *)
Lemma format_float_short_positional (ds : string) (decpt : Z) :
  -4 < decpt <= 16 -> all_digits ds = true ->
  exists ip fr,
    Py.format_float_short ds decpt = ip +:+ "." +:+ fr /\
    all_digits ip = true /\ all_digits fr = true.
Proof.
  intros H Hds. unfold Py.format_float_short.
  replace ((decpt <=? -4) || (16 <? decpt)) with false
    by (symmetry; apply orb_false_iff; split; [apply Z.leb_gt | apply Z.ltb_ge]; lia).
  destruct (decpt <=? 0);
    [| destruct (decpt <? Z.of_nat (String.length ds))].
  - exists "0", (Py.zeros (Z.to_nat (- decpt)) +:+ ds).
    split; [reflexivity |]. split; [reflexivity |].
    rewrite all_digits_app, all_digits_zeros, Hds. reflexivity.
  - exists (Py.take (Z.to_nat decpt) ds), (Py.drop (Z.to_nat decpt) ds).
    split; [reflexivity |].
    split; [by apply all_digits_take | by apply all_digits_drop].
  - exists (ds +:+ Py.zeros (Z.to_nat (decpt - Z.of_nat (String.length ds)))), "0".
    split; [by rewrite append_assoc |]. split; [| reflexivity].
    rewrite all_digits_app, all_digits_zeros, Hds. reflexivity.
Qed.

(** X18: for every duration from a tenth of a millisecond up to [10^15]
    seconds, [str] prints the float in positional notation, digits, a
    point, digits, and [format_seconds] returns a string: the hour, minute
    and second of the whole seconds and, after the point, the first three
    digits of the fraction as printed (fewer when it has fewer). *)
Theorem format_seconds_returns_in_range (x : Py.float) :
  pow10_le (-4) x = true -> lt_pow10 x 15 = true ->
  exists ip fr,
    Py.str x = ip +:+ "." +:+ fr /\
    all_digits ip = true /\ all_digits fr = true /\
    format_seconds x =
      Py.Ok (Py.two_digits (Py.floor x mod 86400 / 3600) +:+ ":" +:+
             Py.two_digits (Py.floor x mod 3600 / 60) +:+ ":" +:+
             Py.two_digits (Py.floor x mod 60) +:+ "." +:+ Py.take 3 fr).
Proof.
  intros Hlo Hhi.
  destruct x as [s | s | | s m e]; try discriminate.
  destruct s; [discriminate |]. cbn in Hlo, Hhi.
  destruct (decpt_in_range m e Hlo Hhi) as [Hk1 Hk2].
  assert (Hstr : exists ip fr,
            Py.str (S754_finite false m e) = ip +:+ "." +:+ fr /\
            all_digits ip = true /\ all_digits fr = true).
  { unfold Py.str. destruct (Py.dtoa m e) as [ds decpt] eqn:Hdtoa.
    change (exists ip fr,
              Py.format_float_short ds decpt = ip +:+ "." +:+ fr /\
              all_digits ip = true /\ all_digits fr = true).
    unfold Py.dtoa in Hdtoa.
    destruct (Py.shortest_from m e (Py.decpt_of_value m e) 16 1) as [c n].
    apply pair_equal_spec in Hdtoa as [Hds Hdecpt].
    apply format_float_short_positional.
    - destruct (c =? 10 ^ n); lia.
    - rewrite <- Hds. apply all_digits_digits_of. }
  destruct Hstr as (ip & fr & Hstr & Hip & Hfr).
  exists ip, fr. repeat (split; [assumption |]).
  apply (format_seconds_positional _ ip fr Hstr Hip Hfr).
Qed.

Lemma format_seconds_returns_in_range_witness :
  exists ip fr,
    Py.str (Py.float_sub t_stop t_start) = ip +:+ "." +:+ fr /\
    all_digits ip = true /\ all_digits fr = true /\
    format_seconds (Py.float_sub t_stop t_start) =
      Py.Ok (Py.two_digits (Py.floor (Py.float_sub t_stop t_start) mod 86400 / 3600)
             +:+ ":" +:+
             Py.two_digits (Py.floor (Py.float_sub t_stop t_start) mod 3600 / 60)
             +:+ ":" +:+
             Py.two_digits (Py.floor (Py.float_sub t_stop t_start) mod 60)
             +:+ "." +:+ Py.take 3 fr).
Proof.
  apply (format_seconds_returns_in_range (Py.float_sub t_stop t_start));
    vm_compute; reflexivity.
Defined.

(** ** The display once the stopwatch is stopped *)

(** X19: before a start and once a time is recorded no refresh of the
    display runs any more: whatever [after] callbacks tkinter is asked to
    dispatch, and whenever, the object stays as it is, so the label keeps
    the elapsed time [stop()] wrote until a click or a key changes it. *)
Theorem no_refresh_unless_running
    (fs : files) (w0 : StopWatch) (evs : list event)
    (refreshes : list (nat * Py.float)) :
  __init__ fs = Py.Ok w0 ->
  _start_time (run w0 evs) = None \/ _final_time (run w0 evs) <> None ->
  run (run w0 evs) (map (fun p => After (fst p) (snd p)) refreshes) =
  run w0 evs.
Proof.
  intros Hinit Hstate.
  assert (Hinv : refresh_invariant (run w0 evs))
    by (apply run_refresh_invariant, (init_refresh_invariant fs), Hinit).
  assert (Hq : after_queue (run w0 evs) = []).
  { destruct Hstate as [Hst | Hft];
      [apply (ri_before _ Hinv Hst) | apply (ri_recorded _ Hinv Hft)]. }
  set (self := run w0 evs) in *. clearbody self. clear Hinv Hstate.
  induction refreshes as [| [id now] l IH]; [reflexivity |].
  cbn [map run fold_left fst snd].
  assert (Hstep : step self (After id now) = self).
  { destruct self as [c st ft aid lbl btn packed cube q n calls].
    cbn in Hq. subst q. reflexivity. }
  rewrite Hstep. exact IH.
Qed.

Lemma no_refresh_unless_running_witness :
  let evs := [Key "space" t_start; After 0 t_tick; Key "space" t_stop] in
  run (run (initial example_config) evs)
    (map (fun p => After (fst p) (snd p)) [(1%nat, t_stop); (0%nat, t_tick)]) =
  run (initial example_config) evs.
Proof.
  apply (no_refresh_unless_running example_files (initial example_config)
           [Key "space" t_start; After 0 t_tick; Key "space" t_stop]
           [(1%nat, t_stop); (0%nat, t_tick)]);
    [reflexivity | right; vm_compute; congruence].
Defined.
